(** * cloudflare-pages-action: reconciliation and naming engine

    A shallow embedding of [lib/utils.mjs], [lib/pages.mjs] and
    [lib/workers.mjs].

    Conventions of the embedding.
    - A JavaScript string is a Rocq [string]: the bytes of its UTF-8
      encoding, in which the slash, the hyphen and every other ASCII
      character is one byte that occurs nowhere else.
    - [String.prototype.toLowerCase] follows the Unicode case tables of the
      engine; it is a member of the class [JsRuntime], and every definition
      and theorem that depends on it holds for every runtime. The instance
      [ascii_runtime] (A-Z to a-z, which is what ECMAScript does on text
      without non-ASCII characters) serves to run examples.
    - A JavaScript number is a safe integer (its digits are then what
      [String] prints) or any other number, carried by the string
      ECMAScript's number-to-string conversion gives for it.
    - A JavaScript object used as a map is the list of its own enumerable
      properties in creation order; [Object_entries] applies the
      ECMAScript key order to it.
    - Effects (console output, remote calls, the subprocess, the file
      system, process termination) are threaded through a small monad that
      records a chronological trace of events; every call that can throw
      in the code, [appendFileSync] included, can throw in the model. *)

From Stdlib Require Import String Ascii List ZArith NArith Bool Lia.
From Stdlib Require Import DecimalString.
Import ListNotations.

Local Open Scope list_scope.
Local Open Scope string_scope.

(** ** JavaScript string primitives *)

Module Js.

Fixpoint string_map (f : ascii -> ascii) (s : string) : string :=
  match s with
  | EmptyString => EmptyString
  | String c r => String (f c) (string_map f r)
  end.

(** Lower-casing of text without non-ASCII characters: the letters A-Z
    (65..90) move up by 32, every other byte stays. *)
Definition lower_ascii (c : ascii) : ascii :=
  let n := nat_of_ascii c in
  if (65 <=? n)%nat && (n <=? 90)%nat then ascii_of_nat (n + 32) else c.

Definition ascii_toLowerCase (s : string) : string := string_map lower_ascii s.

(** The safe integers, between -(2^53 - 1) and 2^53 - 1: the integers a
    number holds exactly and prints digit for digit. *)
Definition is_safe_integer (z : Z) : bool :=
  (Z.abs z <=? 9007199254740991)%Z.

(** One character of [.replace(/\//g, '-')]. *)
Definition slash_to_dash (c : ascii) : ascii :=
  if Ascii.eqb c "/" then "-"%char else c.

Definition replace_slashes (s : string) : string := string_map slash_to_dash s.

(** [a || b] on strings: the empty string and [undefined] are falsy. *)
Definition or_string (a : option string) (b : string) : string :=
  match a with
  | Some EmptyString | None => b
  | Some s => s
  end.

(** [a || b] on arrays: every array is truthy, [undefined] is not. *)
Definition or_array {A} (a : option (list A)) (b : list A) : list A :=
  match a with
  | Some l => l
  | None => b
  end.

(** Truthiness of an optional string. *)
Definition truthy_string (a : option string) : bool :=
  match a with
  | Some EmptyString | None => false
  | Some _ => true
  end.

(** The line feed and the double quote, for message literals. *)
Definition nl : string := String (ascii_of_nat 10) EmptyString.
Definition dq : string := String (ascii_of_nat 34) EmptyString.

End Js.

(** The part of the JavaScript runtime the code relies on beyond what is
    modelled here: [String.prototype.toLowerCase]. *)
Class JsRuntime : Type := { toLowerCase : string -> string }.

(** A runtime for running examples on text without non-ASCII characters. *)
#[global] Instance ascii_runtime : JsRuntime :=
  {| toLowerCase := Js.ascii_toLowerCase |}.

(** ** lib/utils.mjs: branch naming *)

(** [normalizeBranchName]: replace every slash, then lower-case. *)
Definition normalizeBranchName `{JsRuntime} (branch : string) : string :=
  toLowerCase (Js.replace_slashes branch).

(** [isProduction]: strict string equality. *)
Definition isProduction (branch productionBranch : string) : bool :=
  String.eqb branch productionBranch.

(** [getWorkerName]. *)
Definition getWorkerName `{JsRuntime}
    (baseName branch productionBranch : string) : string :=
  if isProduction branch productionBranch then baseName
  else
    let normalizedBranch := normalizeBranchName branch in
    normalizedBranch ++ "-" ++ baseName.

(** ** JavaScript values, [String(value)] and [Object.entries] *)

(** The values [JSON.parse] gives, which are what a configuration or a
    secrets object can hold. A number is either a safe integer, or any
    other number (a fraction, an integer beyond the safe range), which is
    carried by the string that ECMAScript's Number::toString gives for it. *)
#[warnings="-register-all"]
Inductive JsValue : Type :=
| JsString (s : string)
| JsNumber (z : Z) (safe : Js.is_safe_integer z = true)
| JsDecimal (repr : string)
| JsBoolean (b : bool)
| JsNull
| JsArray (items : list JsValue)
| JsRecord (props : list (string * JsValue)).

(** An object as the list of its own enumerable string-keyed properties,
    in creation order. *)
Definition JsObject : Type := list (string * JsValue).

Module JsObj.

(** [String(value)]. An array prints as its elements joined by commas,
    where [null] counts as the empty string; a plain object prints as
    [[object Object]]. *)
Fixpoint String_of (v : JsValue) : string :=
  match v with
  | JsString s => s
  | JsNumber z _ => NilZero.string_of_int (Z.to_int z)
  | JsDecimal repr => repr
  | JsBoolean true => "true"
  | JsBoolean false => "false"
  | JsNull => "null"
  | JsArray items =>
      (fix join (l : list JsValue) : string :=
         match l with
         | [] => ""
         | x :: r =>
             let element :=
               match x with JsNull => "" | _ => String_of x end in
             match r with
             | [] => element
             | _ :: _ => element ++ "," ++ join r
             end
         end) items
  | JsRecord _ => "[object Object]"
  end.

Definition digit_of (c : ascii) : option N :=
  let n := N_of_ascii c in
  if ((48 <=? n) && (n <=? 57))%N then Some (n - 48)%N else None.

Fixpoint parse_digits (s : string) (acc : N) : option N :=
  match s with
  | EmptyString => Some acc
  | String c r =>
      match digit_of c with
      | Some d => parse_digits r (10 * acc + d)%N
      | None => None
      end
  end.

(** A property key is an array index when it is the canonical decimal
    form of an integer between 0 and 2^32 - 2. *)
Definition array_index (k : string) : option N :=
  match k with
  | EmptyString => None
  | String "0" EmptyString => Some 0%N
  | String "0" _ => None
  | _ =>
      match parse_digits k 0 with
      | Some n => if (n <=? 4294967294)%N then Some n else None
      | None => None
      end
  end.

Fixpoint index_props (o : JsObject) : list (N * (string * JsValue)) :=
  match o with
  | [] => []
  | (k, v) :: r =>
      match array_index k with
      | Some i => (i, (k, v)) :: index_props r
      | None => index_props r
      end
  end.

Fixpoint named_props (o : JsObject) : JsObject :=
  match o with
  | [] => []
  | (k, v) :: r =>
      match array_index k with
      | Some _ => named_props r
      | None => (k, v) :: named_props r
      end
  end.

Fixpoint insert_by_index {A} (x : N * A) (l : list (N * A)) : list (N * A) :=
  match l with
  | [] => [x]
  | y :: r =>
      if (fst x <? fst y)%N then x :: y :: r else y :: insert_by_index x r
  end.

Fixpoint sort_by_index {A} (l : list (N * A)) : list (N * A) :=
  match l with
  | [] => []
  | x :: r => insert_by_index x (sort_by_index r)
  end.

(** [Object.entries(o)]: array-index keys in ascending numeric order, then
    the other keys in creation order. *)
Definition Object_entries (o : JsObject) : list (string * JsValue) :=
  (map snd (sort_by_index (index_props o)) ++ named_props o)%list.

(** [arr.push(x)]. *)
Definition push {A} (arr : list A) (x : A) : list A := (arr ++ [x])%list.

(** [for (const x of xs) body], threading the array being built. *)
Definition for_of {A B} (xs : list A) (body : B -> A -> B) (acc : B) : B :=
  fold_left body xs acc.

End JsObj.

(** ** lib/workers.mjs: binding translation *)

Record KvNamespaceRef : Type := { kv_binding : string; kv_id : string }.
Record D1DatabaseRef : Type := { d1_binding : string; d1_database_id : string }.
Record R2BucketRef : Type := { r2_binding : string; r2_bucket_name : string }.

Record BindingsConfig : Type := {
  environment_variables : option JsObject;
  kv_namespaces : option (list KvNamespaceRef);
  d1_databases : option (list D1DatabaseRef);
  r2_buckets : option (list R2BucketRef)
}.

(** One record of the bindings array; the constructor is the [type] tag. *)
Inductive Binding : Type :=
| PlainText (name text : string)
| SecretText (name text : string)
| KvNamespace (name namespace_id : string)
| D1 (name id : string)
| R2Bucket (name bucket_name : string).

Definition binding_name (b : Binding) : string :=
  match b with
  | PlainText n _ | SecretText n _ | KvNamespace n _ | D1 n _ | R2Bucket n _ => n
  end.

Definition binding_type (b : Binding) : string :=
  match b with
  | PlainText _ _ => "plain_text"
  | SecretText _ _ => "secret_text"
  | KvNamespace _ _ => "kv_namespace"
  | D1 _ _ => "d1"
  | R2Bucket _ _ => "r2_bucket"
  end.

(** [bindingsConfig?.field]. *)
Definition opt_chain {A B} (o : option A) (f : A -> option B) : option B :=
  match o with
  | Some a => f a
  | None => None
  end.

(** [buildBindings]. *)
Definition buildBindings (bindingsConfig : option BindingsConfig)
    (secrets : option JsObject) : list Binding :=
  let bindings : list Binding := [] in
  let bindings :=
    match opt_chain bindingsConfig environment_variables with
    | Some env =>
        JsObj.for_of (JsObj.Object_entries env)
          (fun acc '(name, value) =>
             JsObj.push acc (PlainText name (JsObj.String_of value)))
          bindings
    | None => bindings
    end in
  let bindings :=
    match secrets with
    | Some sec =>
        JsObj.for_of (JsObj.Object_entries sec)
          (fun acc '(name, value) =>
             JsObj.push acc (SecretText name (JsObj.String_of value)))
          bindings
    | None => bindings
    end in
  let bindings :=
    match opt_chain bindingsConfig kv_namespaces with
    | Some kvs =>
        JsObj.for_of kvs
          (fun acc kv => JsObj.push acc (KvNamespace (kv_binding kv) (kv_id kv)))
          bindings
    | None => bindings
    end in
  let bindings :=
    match opt_chain bindingsConfig d1_databases with
    | Some d1s =>
        JsObj.for_of d1s
          (fun acc d1 => JsObj.push acc (D1 (d1_binding d1) (d1_database_id d1)))
          bindings
    | None => bindings
    end in
  let bindings :=
    match opt_chain bindingsConfig r2_buckets with
    | Some r2s =>
        JsObj.for_of r2s
          (fun acc r2 =>
             JsObj.push acc (R2Bucket (r2_binding r2) (r2_bucket_name r2)))
          bindings
    | None => bindings
    end in
  bindings.

(** The number of entries of the five binding sources. *)
Definition entry_count (bindingsConfig : option BindingsConfig)
    (secrets : option JsObject) : nat :=
  let len {A} (o : option (list A)) :=
    match o with Some l => List.length l | None => 0 end in
  len (opt_chain bindingsConfig environment_variables)
  + len secrets
  + len (opt_chain bindingsConfig kv_namespaces)
  + len (opt_chain bindingsConfig d1_databases)
  + len (opt_chain bindingsConfig r2_buckets).

(** ** Declared configuration ([cloudflare.json]) *)

Record Repo : Type := { repo_owner : string; repo_name : string }.

Record Preview : Type := {
  preview_branches : option (list string);
  preview_exclude : option (list string)
}.

Record Build : Type := {
  build_command_decl : option string;
  build_output : option string;
  build_root : option string
}.

Record WorkerConfig : Type := {
  worker_name : option string;
  worker_main : string;
  worker_build_command : option string;
  worker_compatibility_date : option string;
  worker_compatibility_flags : option (list string);
  worker_deploy_previews : option bool;
  worker_bindings : option BindingsConfig
}.

Record Config : Type := {
  cfg_name : string;
  cfg_repo : Repo;
  cfg_production_branch : string;
  cfg_preview : option Preview;
  cfg_build : option Build;
  cfg_worker : option WorkerConfig
}.

(** ** Remote records and request payloads *)

Record Source : Type := { source_type : option string }.

(** What [pages.projects.get] resolves to. *)
Record Project : Type := {
  project_name : string;
  project_subdomain : option string;
  project_source : option Source
}.

Record GithubConfig : Type := {
  owner : string;
  gh_repo_name : string;
  gh_production_branch : string;
  deployments_enabled : bool;
  production_deployments_enabled : bool;
  preview_deployment_setting : string;
  preview_branch_includes : list string;
  preview_branch_excludes : list string
}.

Record SourceConfig : Type := { sc_type : string; sc_config : GithubConfig }.

Record BuildConfig : Type := {
  build_command : string;
  destination_dir : string;
  root_dir : string
}.

Record CreateParams : Type := {
  create_account_id : string;
  create_name : string;
  create_production_branch : string;
  create_source : SourceConfig;
  create_build_config : BuildConfig
}.

Record DeploymentConfigs : Type := {
  dc_preview : JsObject;
  dc_production : JsObject
}.

Record EditParams : Type := {
  edit_account_id : string;
  edit_production_branch : string;
  edit_source : SourceConfig;
  edit_build_config : BuildConfig;
  edit_deployment_configs : DeploymentConfigs
}.

Record Metadata : Type := {
  main_module : string;
  md_compatibility_date : option string;
  md_compatibility_flags : list string;
  md_bindings : list Binding
}.

Record ScriptFile : Type := {
  file_parts : list string;
  file_name : string;
  file_type : string
}.

Record UpdateParams : Type := {
  update_account_id : string;
  update_metadata : Metadata;
  update_files : list ScriptFile
}.

(** A thrown JavaScript error: the [status] of an API error, the message,
    and the JSON rendering of the [errors] detail when one is attached. *)
Record JsError : Type := {
  err_status : option Z;
  err_message : string;
  err_errors : option string
}.

(** ** Effects *)

Inductive Event : Type :=
| ConsoleLog (msg : string)
| ConsoleError (msg : string)
| PagesProjectsGet (project account_id : string)
| PagesProjectsCreate (params : CreateParams)
| PagesProjectsEdit (project : string) (params : EditParams)
| PagesProjectsDelete (project account_id : string)
| WorkersScriptsUpdate (script : string) (params : UpdateParams)
| WorkersSubdomainsGet (account_id : string)
| ExecSync (cmd cwd : string)
| ReadFileSync (path : string)
| AppendFileSync (path data : string).

(** Console output is not an interaction with the outside world that can
    answer back; everything else is. *)
Definition is_call (e : Event) : bool :=
  match e with
  | ConsoleLog _ | ConsoleError _ => false
  | _ => true
  end.

Definition calls (tr : list Event) : list Event := filter is_call tr.

(** The mutations of the remote project. *)
Definition is_mutation (e : Event) : bool :=
  match e with
  | PagesProjectsCreate _ | PagesProjectsEdit _ _ | PagesProjectsDelete _ _ => true
  | _ => false
  end.

Definition is_get (e : Event) : bool :=
  match e with
  | PagesProjectsGet _ _ => true
  | _ => false
  end.

Definition is_console_error (e : Event) : bool :=
  match e with
  | ConsoleError _ => true
  | _ => false
  end.

(** The outside world: the Cloudflare client, the subprocess runner, the
    file system and the process environment. Each fallible operation
    answers as a function of the calls made before it, so that a remote
    whose answers change after a mutation is covered. *)
Record World : Type := {
  pages_projects_get : list Event -> string -> string -> JsError + Project;
  pages_projects_create : list Event -> CreateParams -> option JsError;
  pages_projects_edit : list Event -> string -> EditParams -> option JsError;
  pages_projects_delete : list Event -> string -> string -> option JsError;
  workers_scripts_update : list Event -> string -> UpdateParams -> option JsError;
  workers_subdomains_get : list Event -> string -> JsError + string;
  execSync : list Event -> string -> string -> option JsError;
  readFileSync : list Event -> string -> JsError + string;
  appendFileSync : list Event -> string -> string -> option JsError;
  env_GITHUB_OUTPUT : option string
}.

(** How a computation ends: a value, a thrown error, or [process.exit]. *)
Inductive Outcome (A : Type) : Type :=
| Returned (a : A)
| Thrown (e : JsError)
| Exited (code : Z).

Arguments Returned {A} a.
Arguments Thrown {A} e.
Arguments Exited {A} code.

(** Computations over the chronological trace of events. *)
Definition M (A : Type) : Type := list Event -> Outcome A * list Event.

Module Eff.

Definition ret {A} (a : A) : M A := fun tr => (Returned a, tr).

Definition bind {A B} (m : M A) (k : A -> M B) : M B :=
  fun tr =>
    match m tr with
    | (Returned a, tr') => k a tr'
    | (Thrown e, tr') => (Thrown e, tr')
    | (Exited c, tr') => (Exited c, tr')
    end.

Definition throw {A} (e : JsError) : M A := fun tr => (Thrown e, tr).

(** [process.exit(code)]: no handler sees it. *)
Definition process_exit {A} (code : Z) : M A := fun tr => (Exited code, tr).

(** [try { m } catch (err) { handler err }]. *)
Definition try_catch {A} (m : M A) (handler : JsError -> M A) : M A :=
  fun tr =>
    match m tr with
    | (Thrown e, tr') => handler e tr'
    | r => r
    end.

Definition emit (e : Event) : M unit :=
  fun tr => (Returned tt, (tr ++ [e])%list).

(** A call that resolves to a value or throws. *)
Definition call {A} (e : Event) (answer : list Event -> JsError + A) : M A :=
  fun tr =>
    match answer (calls tr) with
    | inr a => (Returned a, (tr ++ [e])%list)
    | inl err => (Thrown err, (tr ++ [e])%list)
    end.

(** A call whose resolved value is not used. *)
Definition call_ (e : Event) (answer : list Event -> option JsError) : M unit :=
  call e (fun h => match answer h with Some err => inl err | None => inr tt end).

Definition console_log (msg : string) : M unit := emit (ConsoleLog msg).
Definition console_error (msg : string) : M unit := emit (ConsoleError msg).

(** Run a computation in a fresh process. *)
Definition run {A} (m : M A) : Outcome A * list Event := m [].

End Eff.

Declare Scope eff_scope.
Delimit Scope eff_scope with eff.
Notation "x <- m ;; k" := (Eff.bind m (fun x => k))
  (at level 61, m at next level, right associativity) : eff_scope.
Notation "m ;; k" := (Eff.bind m (fun _ => k))
  (at level 61, right associativity) : eff_scope.
Local Open Scope eff_scope.

(** ** lib/utils.mjs: [setOutput] *)

Definition setOutput (w : World) (name value : string) : M unit :=
  let outputFile := env_GITHUB_OUTPUT w in
  if Js.truthy_string outputFile then
    let file := Js.or_string outputFile "" in
    let data := name ++ "=" ++ value ++ Js.nl in
    Eff.call_ (AppendFileSync file data) (fun h => appendFileSync w h file data)
  else Eff.ret tt.

(** ** lib/pages.mjs: [syncPages] *)

Record PagesResult : Type := { pagesUrl : string }.

(** [err.status === 404]. *)
Definition status_is (err : JsError) (code : Z) : bool :=
  match err_status err with
  | Some s => Z.eqb s code
  | None => false
  end.

(** [existingProject.source?.type === 'github']. *)
Definition hasGitHubSource (existingProject : Project) : bool :=
  match opt_chain (project_source existingProject) source_type with
  | Some t => String.eqb t "github"
  | None => false
  end.

Definition sourceConfig_of (config : Config) : SourceConfig :=
  {| sc_type := "github";
     sc_config :=
       {| owner := repo_owner (cfg_repo config);
          gh_repo_name := repo_name (cfg_repo config);
          gh_production_branch := cfg_production_branch config;
          deployments_enabled := true;
          production_deployments_enabled := true;
          preview_deployment_setting := "all";
          preview_branch_includes :=
            Js.or_array (opt_chain (cfg_preview config) preview_branches) ["*"];
          preview_branch_excludes :=
            Js.or_array (opt_chain (cfg_preview config) preview_exclude) [] |} |}.

Definition buildConfig_of (config : Config) : BuildConfig :=
  {| build_command :=
       Js.or_string (opt_chain (cfg_build config) build_command_decl) "";
     destination_dir :=
       Js.or_string (opt_chain (cfg_build config) build_output) ".";
     root_dir := Js.or_string (opt_chain (cfg_build config) build_root) "" |}.

Definition createParams_of (accountId : string) (config : Config) : CreateParams :=
  {| create_account_id := accountId;
     create_name := cfg_name config;
     create_production_branch := cfg_production_branch config;
     create_source := sourceConfig_of config;
     create_build_config := buildConfig_of config |}.

Definition editParams_of (accountId : string) (config : Config) : EditParams :=
  {| edit_account_id := accountId;
     edit_production_branch := cfg_production_branch config;
     edit_source := sourceConfig_of config;
     edit_build_config := buildConfig_of config;
     edit_deployment_configs := {| dc_preview := []; dc_production := [] |} |}.

Definition syncPages (w : World) (accountId : string) (config : Config)
    (allowRecreate : bool) : M PagesResult :=
  Eff.console_log (Js.nl ++ "=== Pages Configuration ===") ;;
  Eff.console_log ("Project: " ++ cfg_name config) ;;
  Eff.console_log ("Repo: " ++ repo_owner (cfg_repo config) ++ "/"
                   ++ repo_name (cfg_repo config)) ;;
  Eff.console_log ("Production branch: " ++ cfg_production_branch config) ;;
  existingProject <-
    Eff.try_catch
      (p <- Eff.call (PagesProjectsGet (cfg_name config) accountId)
              (fun h => pages_projects_get w h (cfg_name config) accountId) ;;
       Eff.console_log (Js.nl ++ "Project exists, checking configuration...") ;;
       Eff.ret (Some p))
      (fun err =>
         if status_is err 404 then
           Eff.console_log (Js.nl ++ "Project does not exist, creating...") ;;
           Eff.ret None
         else Eff.throw err) ;;
  let create :=
    Eff.call_ (PagesProjectsCreate (createParams_of accountId config))
      (fun h => pages_projects_create w h (createParams_of accountId config)) in
  match existingProject with
  | Some p =>
      if negb (hasGitHubSource p) then
        (if negb allowRecreate then
           Eff.console_error
             (Js.nl ++ "ERROR: Project exists as a Direct Upload project.") ;;
           Eff.console_error
             "To migrate to GitHub integration, the project must be deleted and recreated." ;;
           Eff.console_error (Js.nl ++ "To allow this, either:") ;;
           Eff.console_error
             ("  1. Run the workflow manually with " ++ Js.dq ++ "Allow recreate"
              ++ Js.dq ++ " checked") ;;
           Eff.console_error
             ("  2. Add " ++ Js.dq ++ "allow_recreate" ++ Js.dq
              ++ ": true to cloudflare.json (then remove it after)") ;;
           Eff.console_error
             (Js.nl ++ "WARNING: This will delete all existing deployments and history!") ;;
           Eff.process_exit 1
         else Eff.ret tt) ;;
        Eff.console_log
          "Project is a Direct Upload project, deleting to recreate with GitHub source..." ;;
        Eff.call_ (PagesProjectsDelete (cfg_name config) accountId)
          (fun h => pages_projects_delete w h (cfg_name config) accountId) ;;
        Eff.console_log "Project deleted, recreating with GitHub integration..." ;;
        create ;;
        Eff.console_log "Project recreated with GitHub integration!"
      else
        Eff.console_log "Updating existing GitHub-connected project..." ;;
        Eff.call_ (PagesProjectsEdit (cfg_name config) (editParams_of accountId config))
          (fun h => pages_projects_edit w h (cfg_name config)
                      (editParams_of accountId config)) ;;
        Eff.console_log "Configuration updated successfully"
  | None =>
      create ;;
      Eff.console_log "Project created with GitHub integration!" ;;
      Eff.console_log "Cloudflare will now auto-deploy on every push."
  end ;;
  let pagesUrl := "https://" ++ cfg_name config ++ ".pages.dev" in
  Eff.console_log (Js.nl ++ "Pages URL: " ++ pagesUrl) ;;
  Eff.console_log ("Dashboard: https://dash.cloudflare.com/" ++ accountId
                   ++ "/pages/view/" ++ cfg_name config) ;;
  setOutput w "pages-url" pagesUrl ;;
  Eff.ret {| pagesUrl := pagesUrl |}.

(** ** lib/workers.mjs: [runBuild] and [syncWorker] *)

Record WorkerResult : Type := { workerName : string; workerUrl : string }.

(** [path.basename] (POSIX): the last segment, trailing slashes ignored.
    [seg] is the segment being read, [last] the last complete one. *)
Fixpoint basename_scan (path seg last : string) : string :=
  match path with
  | EmptyString => match seg with EmptyString => last | _ => seg end
  | String c r =>
      if Ascii.eqb c "/" then
        basename_scan r "" (match seg with EmptyString => last | _ => seg end)
      else basename_scan r (seg ++ String c "") last
  end.

Definition basename (path : string) : string := basename_scan path "" "".

Definition runBuild (w : World) (buildCommand : option string)
    (workingDir : string) : M unit :=
  if negb (Js.truthy_string buildCommand) then Eff.ret tt
  else
    let cmd := Js.or_string buildCommand "" in
    Eff.console_log ("Running build command: " ++ cmd) ;;
    Eff.try_catch
      (Eff.call_ (ExecSync cmd workingDir) (fun h => execSync w h cmd workingDir) ;;
       Eff.console_log "Build completed successfully")
      (fun err =>
         Eff.console_error ("Build failed: " ++ err_message err) ;;
         Eff.throw err).

Definition metadata_of (workerConfig : WorkerConfig) (secrets : option JsObject)
    : Metadata :=
  {| main_module := basename (worker_main workerConfig);
     md_compatibility_date := worker_compatibility_date workerConfig;
     md_compatibility_flags :=
       Js.or_array (worker_compatibility_flags workerConfig) [];
     md_bindings := buildBindings (worker_bindings workerConfig) secrets |}.

Definition updateParams_of (accountId : string) (workerConfig : WorkerConfig)
    (secrets : option JsObject) (scriptContent : string) : UpdateParams :=
  {| update_account_id := accountId;
     update_metadata := metadata_of workerConfig secrets;
     update_files :=
       [ {| file_parts := [scriptContent];
            file_name := basename (worker_main workerConfig);
            file_type := "application/javascript+module" |} ] |}.

Definition syncWorker `{JsRuntime} (w : World) (accountId : string)
    (config : Config)
    (branch : string) (secrets : option JsObject) (workingDir : string)
    : M (option WorkerResult) :=
  match cfg_worker config with
  | None =>
      Eff.console_log
        (Js.nl ++ "No worker configuration found, skipping worker deployment.") ;;
      Eff.ret None
  | Some workerConfig =>
      let isProductionDeploy := isProduction branch (cfg_production_branch config) in
      if negb isProductionDeploy
         && match worker_deploy_previews workerConfig with
            | Some false => true
            | _ => false
            end
      then
        Eff.console_log (Js.nl ++ "Preview worker deployments disabled, skipping.") ;;
        Eff.ret None
      else
        let workerName :=
          getWorkerName (cfg_name config) branch (cfg_production_branch config) in
        Eff.console_log (Js.nl ++ "=== Worker Deployment ===") ;;
        Eff.console_log ("Worker name: " ++ workerName) ;;
        Eff.console_log ("Entry point: " ++ worker_main workerConfig) ;;
        Eff.console_log
          ("Branch: " ++ branch ++ " ("
           ++ (if isProductionDeploy then "production" else "preview") ++ ")") ;;
        (if Js.truthy_string (worker_build_command workerConfig) then
           runBuild w (worker_build_command workerConfig) workingDir
         else Eff.ret tt) ;;
        let scriptPath := workingDir ++ "/" ++ worker_main workerConfig in
        scriptContent <-
          Eff.try_catch
            (Eff.call (ReadFileSync scriptPath) (fun h => readFileSync w h scriptPath))
            (fun err =>
               Eff.console_error
                 ("Failed to read worker script at " ++ scriptPath ++ ": "
                  ++ err_message err) ;;
               Eff.throw err) ;;
        let params := updateParams_of accountId workerConfig secrets scriptContent in
        Eff.try_catch
          (Eff.console_log "Uploading worker script..." ;;
           Eff.call_ (WorkersScriptsUpdate workerName params)
             (fun h => workers_scripts_update w h workerName params) ;;
           Eff.console_log "Worker script deployed successfully." ;;
           subdomain <-
             Eff.call (WorkersSubdomainsGet accountId)
               (fun h => workers_subdomains_get w h accountId) ;;
           let workerUrl :=
             "https://" ++ workerName ++ "." ++ subdomain ++ ".workers.dev" in
           Eff.console_log (Js.nl ++ "Worker URL: " ++ workerUrl) ;;
           setOutput w "worker-url" workerUrl ;;
           setOutput w "worker-name" workerName ;;
           Eff.ret (Some {| workerName := workerName; workerUrl := workerUrl |}))
          (fun err =>
             Eff.console_error ("Worker deployment failed: " ++ err_message err) ;;
             (match err_errors err with
              | Some details => Eff.console_error ("Details: " ++ details)
              | None => Eff.ret tt
              end) ;;
             Eff.throw err)
  end.

(** ** sync-cloudflare.mjs: [main] *)

(** [path.dirname] (POSIX). The characters after the first are scanned
    from the end: trailing slashes are passed over, then the last segment,
    and the slash in front of it marks where the result ends. *)
Definition is_slash (c : ascii) : bool := Ascii.eqb c "/".

Fixpoint drop_while {A} (f : A -> bool) (l : list A) : list A :=
  match l with
  | [] => []
  | x :: r => if f x then drop_while f r else l
  end.

Definition dirname (path : string) : string :=
  match path with
  | EmptyString => "."
  | String c0 rest =>
      let hasRoot := is_slash c0 in
      let back := rev (list_ascii_of_string rest) in
      let after_trailing := drop_while is_slash back in
      let after_segment :=
        drop_while (fun c => negb (is_slash c)) after_trailing in
      match after_segment with
      | [] => if hasRoot then "/" else "."
      | _ :: before =>
          match before with
          | [] => if hasRoot then "//" else String c0 ""
          | _ => String c0 (string_of_list_ascii (rev before))
          end
      end
  end.

(** The configuration file as [main] reads it: the configuration proper
    and the [allow_recreate] member. *)
Record ConfigFile : Type := {
  file_config : Config;
  file_allow_recreate : option JsValue
}.

(** The process environment [main] reads. *)
Record Env : Type := {
  CLOUDFLARE_API_TOKEN : option string;
  CLOUDFLARE_ACCOUNT_ID : option string;
  CONFIG_PATH : option string;
  ALLOW_RECREATE : option string;
  DEPLOY_WORKER : option string;
  BRANCH : option string;
  WORKER_SECRETS : option string
}.

(** The environment together with [JSON.parse], taken as a parameter at
    the two types it is used at: the secrets object as [buildBindings]
    will see it ([None] for a falsy value), and the configuration file. *)
Record Runtime : Type := {
  env : Env;
  JSON_parse_secrets : string -> JsError + option JsObject;
  JSON_parse_config : string -> JsError + ConfigFile
}.

(** A pure library call that returns or throws. *)
Definition of_result {A} (r : JsError + A) : M A :=
  fun tr =>
    match r with
    | inr a => (Returned a, tr)
    | inl err => (Thrown err, tr)
    end.

(** [process.env.X === 'literal']. *)
Definition env_is (v : option string) (literal : string) : bool :=
  match v with
  | Some s => String.eqb s literal
  | None => false
  end.

(** [config.allow_recreate === true]. *)
Definition is_true (v : option JsValue) : bool :=
  match v with
  | Some (JsBoolean true) => true
  | _ => false
  end.

Definition banner : string :=
  "==================================================".

(** The body of [main]. *)
Definition main_body `{JsRuntime} (w : World) (rt : Runtime) : M unit :=
  let apiToken := CLOUDFLARE_API_TOKEN (env rt) in
  let accountId := CLOUDFLARE_ACCOUNT_ID (env rt) in
  let configPath := CONFIG_PATH (env rt) in
  let allowRecreateEnv := env_is (ALLOW_RECREATE (env rt)) "true" in
  let deployWorker := negb (env_is (DEPLOY_WORKER (env rt)) "false") in
  let branch := Js.or_string (BRANCH (env rt)) "main" in
  workerSecrets <-
    Eff.try_catch
      (of_result
         (JSON_parse_secrets rt (Js.or_string (WORKER_SECRETS (env rt)) "{}")))
      (fun _ =>
         Eff.console_error "Warning: Failed to parse WORKER_SECRETS as JSON" ;;
         Eff.ret (Some [])) ;;
  (if negb (Js.truthy_string apiToken) || negb (Js.truthy_string accountId) then
     Eff.console_error
       "Error: CLOUDFLARE_API_TOKEN and CLOUDFLARE_ACCOUNT_ID must be set" ;;
     Eff.process_exit 1
   else Eff.ret tt) ;;
  (if negb (Js.truthy_string configPath) then
     Eff.console_error "Error: CONFIG_PATH must be set" ;;
     Eff.process_exit 1
   else Eff.ret tt) ;;
  let accountId := Js.or_string accountId "" in
  let configPath := Js.or_string configPath "" in
  content <-
    Eff.call (ReadFileSync configPath) (fun h => readFileSync w h configPath) ;;
  file <- of_result (JSON_parse_config rt content) ;;
  let config := file_config file in
  let allowRecreate := allowRecreateEnv || is_true (file_allow_recreate file) in
  let workingDir := dirname configPath in
  Eff.console_log banner ;;
  Eff.console_log "Cloudflare Pages & Workers Sync" ;;
  Eff.console_log banner ;;
  Eff.console_log ("Branch: " ++ branch) ;;
  Eff.console_log ("Production branch: " ++ cfg_production_branch config) ;;
  pagesResult <- syncPages w accountId config allowRecreate ;;
  workerResult <-
    (if deployWorker
        && match cfg_worker config with Some _ => true | None => false end
     then syncWorker w accountId config branch workerSecrets workingDir
     else Eff.ret None) ;;
  Eff.console_log (Js.nl ++ banner) ;;
  Eff.console_log "Deployment Summary" ;;
  Eff.console_log banner ;;
  Eff.console_log ("Pages URL: " ++ pagesUrl pagesResult) ;;
  (match workerResult with
   | Some r =>
       Eff.console_log ("Worker URL: " ++ workerUrl r) ;;
       Eff.console_log ("Worker Name: " ++ workerName r)
   | None => Eff.ret tt
   end) ;;
  Eff.console_log banner.

(** [main().catch(...)]: whatever [main] throws is reported and turned
    into exit status 1. *)
Definition main `{JsRuntime} (w : World) (rt : Runtime) : M unit :=
  Eff.try_catch (main_body w rt)
    (fun err =>
       Eff.console_error ("Error: " ++ err_message err) ;;
       (match err_errors err with
        | Some details => Eff.console_error ("Details: " ++ details)
        | None => Eff.ret tt
        end) ;;
       Eff.process_exit 1).

(** ** lib/defaults.mjs: [getRepoInfoFromEnv] *)

(** [s.split('/')]: the segments between slashes, at least one. [seg] is
    the segment being read. *)
Fixpoint split_scan (s seg : string) : list string :=
  match s with
  | EmptyString => [seg]
  | String c r =>
      if Ascii.eqb c "/" then seg :: split_scan r ""
      else split_scan r (seg ++ String c "")
  end.

Definition split_slash (s : string) : list string := split_scan s "".

Record RepoInfo : Type := {
  repoOwner : option string;
  repoName : option string
}.

(** [getRepoInfoFromEnv], with the value of GITHUB_REPOSITORY as its
    argument; the destructuring takes the first two segments. *)
Definition getRepoInfoFromEnv (GITHUB_REPOSITORY : option string)
    : option RepoInfo :=
  if negb (Js.truthy_string GITHUB_REPOSITORY) then None
  else
    let parts := split_slash (Js.or_string GITHUB_REPOSITORY "") in
    Some {| repoOwner := nth_error parts 0; repoName := nth_error parts 1 |}.

(** ** Vocabulary of the statements *)

(** The source-integration kind tag of a remote record: [None] when the
    record has no source, or a source without a type. *)
Definition source_kind (p : Project) : option string :=
  opt_chain (project_source p) source_type.

(** The entries a binding source contributes; an absent source has none. *)
Definition entries_of (o : option JsObject) : list (string * JsValue) :=
  match o with
  | Some obj => JsObj.Object_entries obj
  | None => []
  end.

Definition items_of {A} (o : option (list A)) : list A :=
  match o with
  | Some l => l
  | None => []
  end.

(** The base name as the specification words it: the artifact's own name,
    the project display name only when none is declared. *)
Definition spec_base_name (config : Config) (workerConfig : WorkerConfig) : string :=
  match worker_name workerConfig with
  | Some n => n
  | None => cfg_name config
  end.

Definition spec_identity `{JsRuntime} (config : Config)
    (workerConfig : WorkerConfig) (branch : string) : string :=
  getWorkerName (spec_base_name config workerConfig) branch
    (cfg_production_branch config).

(** The calls [syncWorker] has made when it comes to read the entry
    point: the build command, when one is declared. *)
Definition build_calls (workerConfig : WorkerConfig) (workingDir : string)
    : list Event :=
  if Js.truthy_string (worker_build_command workerConfig) then
    [ExecSync (Js.or_string (worker_build_command workerConfig) "") workingDir]
  else [].

(** ** The worlds of the repository's tests *)

Module Mock.

(** A mocked [get]: the queued answers in order, then the default one. *)
Definition queued_get (queue : list (JsError + Project)) (default : JsError + Project)
    (h : list Event) : JsError + Project :=
  nth (List.length (filter is_get h)) queue default.

Definition not_found : JsError :=
  {| err_status := Some 404%Z; err_message := "Not Found"; err_errors := None |}.

Definition github_project (subdomain : option string) : Project :=
  {| project_name := "my-project";
     project_subdomain := subdomain;
     project_source := Some {| source_type := Some "github" |} |}.

Definition direct_upload_project : Project :=
  {| project_name := "my-project";
     project_subdomain := None;
     project_source := Some {| source_type := Some "direct_upload" |} |}.

Definition sourceless_project : Project :=
  {| project_name := "my-project";
     project_subdomain := None;
     project_source := None |}.

Definition script_text : string :=
  "export default { fetch() { return new Response(" ++ Js.dq ++ "Hello"
  ++ Js.dq ++ "); } }".

(** Every mutation and upload resolves; [get] follows the queue. *)
Definition world (queue : list (JsError + Project)) (default : JsError + Project)
    : World :=
  {| pages_projects_get := fun h _ _ => queued_get queue default h;
     pages_projects_create := fun _ _ => None;
     pages_projects_edit := fun _ _ _ => None;
     pages_projects_delete := fun _ _ _ => None;
     workers_scripts_update := fun _ _ _ => None;
     workers_subdomains_get := fun _ _ => inr "myaccount";
     execSync := fun _ _ _ => None;
     readFileSync := fun _ _ => inr script_text;
     appendFileSync := fun _ _ _ => None;
     env_GITHUB_OUTPUT := None |}.

Definition baseConfig : Config :=
  {| cfg_name := "my-project";
     cfg_repo := {| repo_owner := "myorg"; repo_name := "myrepo" |};
     cfg_production_branch := "main";
     cfg_preview :=
       Some {| preview_branches := Some ["*"]; preview_exclude := Some [] |};
     cfg_build :=
       Some {| build_command_decl := Some "npm run build";
               build_output := Some "dist";
               build_root := Some "" |};
     cfg_worker := None |}.

(** The world of the test "should use subdomain from API response for
    URL": not found first, then a record with a prefixed subdomain. *)
Definition custom_subdomain_world : World :=
  world [inl not_found;
         inr (github_project (Some "custom-prefix-my-project.pages.dev"))]
        (inr (github_project (Some "my-project.pages.dev"))).

Definition direct_upload_world : World :=
  world [] (inr direct_upload_project).

Definition workerConfig (deploy_previews : option bool) : WorkerConfig :=
  {| worker_name := Some "my-worker";
     worker_main := "worker/worker.js";
     worker_build_command := None;
     worker_compatibility_date := Some "2024-01-01";
     worker_compatibility_flags := None;
     worker_deploy_previews := deploy_previews;
     worker_bindings := None |}.

Definition appConfig (deploy_previews : option bool) : Config :=
  {| cfg_name := "my-app";
     cfg_repo := {| repo_owner := "myorg"; repo_name := "myrepo" |};
     cfg_production_branch := "main";
     cfg_preview := None;
     cfg_build := None;
     cfg_worker := Some (workerConfig deploy_previews) |}.

End Mock.

(** ** Further vocabulary *)

Definition is_append (e : Event) : bool :=
  match e with
  | AppendFileSync _ _ => true
  | _ => false
  end.

Definition is_delete (e : Event) : bool :=
  match e with
  | PagesProjectsDelete _ _ => true
  | _ => false
  end.

(** What only [syncWorker] does: the build, the upload and the subdomain
    query. *)
Definition is_worker_call (e : Event) : bool :=
  match e with
  | ExecSync _ _ | WorkersScriptsUpdate _ _ | WorkersSubdomainsGet _ => true
  | _ => false
  end.

Definition is_read (e : Event) : bool :=
  match e with
  | ReadFileSync _ => true
  | _ => false
  end.

(** No character of [s] is a slash. *)
Fixpoint slash_free (s : string) : bool :=
  match s with
  | EmptyString => true
  | String c r => negb (is_slash c) && slash_free r
  end.


(** The condition under which [syncWorker] has nothing to do. *)
Definition worker_skipped (config : Config) (branch : string) : Prop :=
  cfg_worker config = None
  \/ exists wc,
       cfg_worker config = Some wc
       /\ branch <> cfg_production_branch config
       /\ worker_deploy_previews wc = Some false.

(** The error with which the world answers the call [e] made after the
    calls [h], if it answers with one. *)
Definition thrown_by (w : World) (h : list Event) (e : Event) : option JsError :=
  match e with
  | PagesProjectsGet n a =>
      match pages_projects_get w h n a with inl err => Some err | inr _ => None end
  | PagesProjectsCreate p => pages_projects_create w h p
  | PagesProjectsEdit n p => pages_projects_edit w h n p
  | PagesProjectsDelete n a => pages_projects_delete w h n a
  | WorkersScriptsUpdate n p => workers_scripts_update w h n p
  | WorkersSubdomainsGet a =>
      match workers_subdomains_get w h a with inl err => Some err | inr _ => None end
  | ExecSync c d => execSync w h c d
  | ReadFileSync f =>
      match readFileSync w h f with inl err => Some err | inr _ => None end
  | AppendFileSync f data => appendFileSync w h f data
  | _ => None
  end.

(** The source configuration a create or edit request carries. *)
Definition request_source (e : Event) : option SourceConfig :=
  match e with
  | PagesProjectsCreate p => Some (create_source p)
  | PagesProjectsEdit _ p => Some (edit_source p)
  | _ => None
  end.

(** The line [setOutput] appends. *)
Definition output_line (name value : string) : string :=
  name ++ "=" ++ value ++ Js.nl.

(** ** Further worlds *)

Module MockRun.

Definition server_error : JsError :=
  {| err_status := Some 500%Z; err_message := "Server Error";
     err_errors := None |}.

Definition enoent : JsError :=
  {| err_status := None;
     err_message := "ENOENT: no such file or directory";
     err_errors := None |}.


(** A world in which one operation fails. *)
Definition failing_build (err : JsError) : World :=
  {| pages_projects_get := fun _ _ _ => inl Mock.not_found;
     pages_projects_create := fun _ _ => None;
     pages_projects_edit := fun _ _ _ => None;
     pages_projects_delete := fun _ _ _ => None;
     workers_scripts_update := fun _ _ _ => None;
     workers_subdomains_get := fun _ _ => inr "myaccount";
     execSync := fun _ _ _ => Some err;
     readFileSync := fun _ _ => inr Mock.script_text;
     appendFileSync := fun _ _ _ => None;
     env_GITHUB_OUTPUT := None |}.

Definition failing_read (err : JsError) : World :=
  {| pages_projects_get := fun _ _ _ => inl Mock.not_found;
     pages_projects_create := fun _ _ => None;
     pages_projects_edit := fun _ _ _ => None;
     pages_projects_delete := fun _ _ _ => None;
     workers_scripts_update := fun _ _ _ => None;
     workers_subdomains_get := fun _ _ => inr "myaccount";
     execSync := fun _ _ _ => None;
     readFileSync := fun _ _ => inl err;
     appendFileSync := fun _ _ _ => None;
     env_GITHUB_OUTPUT := None |}.

Definition failing_upload (err : JsError) : World :=
  {| pages_projects_get := fun _ _ _ => inl Mock.not_found;
     pages_projects_create := fun _ _ => None;
     pages_projects_edit := fun _ _ _ => None;
     pages_projects_delete := fun _ _ _ => None;
     workers_scripts_update := fun _ _ _ => Some err;
     workers_subdomains_get := fun _ _ => inr "myaccount";
     execSync := fun _ _ _ => None;
     readFileSync := fun _ _ => inr Mock.script_text;
     appendFileSync := fun _ _ _ => None;
     env_GITHUB_OUTPUT := None |}.

Definition failing_create (err : JsError) : World :=
  {| pages_projects_get := fun _ _ _ => inl Mock.not_found;
     pages_projects_create := fun _ _ => Some err;
     pages_projects_edit := fun _ _ _ => None;
     pages_projects_delete := fun _ _ _ => None;
     workers_scripts_update := fun _ _ _ => None;
     workers_subdomains_get := fun _ _ => inr "myaccount";
     execSync := fun _ _ _ => None;
     readFileSync := fun _ _ => inr Mock.script_text;
     appendFileSync := fun _ _ _ => None;
     env_GITHUB_OUTPUT := None |}.

(** GITHUB_OUTPUT is set and every append to it fails. *)
Definition failing_append (err : JsError) : World :=
  {| pages_projects_get := fun _ _ _ => inl Mock.not_found;
     pages_projects_create := fun _ _ => None;
     pages_projects_edit := fun _ _ _ => None;
     pages_projects_delete := fun _ _ _ => None;
     workers_scripts_update := fun _ _ _ => None;
     workers_subdomains_get := fun _ _ => inr "myaccount";
     execSync := fun _ _ _ => None;
     readFileSync := fun _ _ => inr Mock.script_text;
     appendFileSync := fun _ _ _ => Some err;
     env_GITHUB_OUTPUT := Some "/tmp/github_output" |}.



Definition full_env : Env :=
  {| CLOUDFLARE_API_TOKEN := Some "token";
     CLOUDFLARE_ACCOUNT_ID := Some "account-id";
     CONFIG_PATH := Some "/repo/cloudflare.json";
     ALLOW_RECREATE := None;
     DEPLOY_WORKER := None;
     BRANCH := Some "feature/auth";
     WORKER_SECRETS := None |}.

(** A runtime whose configuration file parses to [file]. *)
Definition runtime (e : Env) (file : ConfigFile) : Runtime :=
  {| env := e;
     JSON_parse_secrets := fun _ => inr (Some []);
     JSON_parse_config := fun _ => inr file |}.

Definition appFile : ConfigFile :=
  {| file_config := Mock.appConfig None; file_allow_recreate := None |}.

End MockRun.

(** ** Proof automation for runs *)

Ltac eff_unfold :=
  cbv [Eff.run Eff.bind Eff.console_log Eff.console_error Eff.emit Eff.call
       Eff.call_ Eff.try_catch Eff.ret Eff.throw Eff.process_exit setOutput
       runBuild].

Ltac eff_calls :=
  cbn [calls filter is_call is_mutation is_console_error is_get app negb
       fst snd List.length].

(** Split on every answer of the world that the run still depends on. *)
Ltac eff_answer t := destruct t eqn:?; cbv beta iota; eff_calls.

Ltac eff_cases :=
  repeat match goal with
         | |- context [pages_projects_create ?w ?h ?p] =>
             eff_answer (pages_projects_create w h p)
         | |- context [pages_projects_edit ?w ?h ?n ?p] =>
             eff_answer (pages_projects_edit w h n p)
         | |- context [pages_projects_delete ?w ?h ?n ?a] =>
             eff_answer (pages_projects_delete w h n a)
         | |- context [workers_scripts_update ?w ?h ?n ?p] =>
             eff_answer (workers_scripts_update w h n p)
         | |- context [workers_subdomains_get ?w ?h ?a] =>
             eff_answer (workers_subdomains_get w h a)
         | |- context [execSync ?w ?h ?c ?d] =>
             eff_answer (execSync w h c d)
         | |- context [readFileSync ?w ?h ?f] =>
             eff_answer (readFileSync w h f)
         | |- context [pages_projects_get ?w ?h ?n ?a] =>
             eff_answer (pages_projects_get w h n a)
         | |- context [Js.truthy_string (env_GITHUB_OUTPUT ?w)] =>
             eff_answer (Js.truthy_string (env_GITHUB_OUTPUT w))
         | |- context [Js.truthy_string (worker_build_command ?wc)] =>
             eff_answer (Js.truthy_string (worker_build_command wc))
         | |- context [status_is ?e ?c] => eff_answer (status_is e c)
         | |- context [hasGitHubSource ?p] => eff_answer (hasGitHubSource p)
         | |- context [err_errors ?e] => eff_answer (err_errors e)
         | |- context [appendFileSync ?w ?h ?f ?d] =>
             eff_answer (appendFileSync w h f d)
         end.

Ltac run_calls :=
  cbn [calls filter is_call is_mutation is_console_error is_get is_append
       is_delete is_worker_call app negb fst snd List.length].

Ltac run_answer t := destruct t eqn:?; cbv beta iota; run_calls.

Ltac run_cases :=
  repeat match goal with
         | |- context [pages_projects_create ?w ?h ?p] =>
             run_answer (pages_projects_create w h p)
         | |- context [pages_projects_edit ?w ?h ?n ?p] =>
             run_answer (pages_projects_edit w h n p)
         | |- context [pages_projects_delete ?w ?h ?n ?a] =>
             run_answer (pages_projects_delete w h n a)
         | |- context [workers_scripts_update ?w ?h ?n ?p] =>
             run_answer (workers_scripts_update w h n p)
         | |- context [workers_subdomains_get ?w ?h ?a] =>
             run_answer (workers_subdomains_get w h a)
         | |- context [execSync ?w ?h ?c ?d] =>
             run_answer (execSync w h c d)
         | |- context [readFileSync ?w ?h ?f] =>
             run_answer (readFileSync w h f)
         | |- context [pages_projects_get ?w ?h ?n ?a] =>
             run_answer (pages_projects_get w h n a)
         | |- context [Js.truthy_string (worker_build_command ?wc)] =>
             run_answer (Js.truthy_string (worker_build_command wc))
         | |- context [status_is ?e ?c] => run_answer (status_is e c)
         | |- context [hasGitHubSource ?p] => run_answer (hasGitHubSource p)
         | |- context [err_errors ?e] => run_answer (err_errors e)
         | |- context [Js.truthy_string (env_GITHUB_OUTPUT ?w)] =>
             run_answer (Js.truthy_string (env_GITHUB_OUTPUT w))
         | |- context [appendFileSync ?w ?h ?f ?d] =>
             run_answer (appendFileSync w h f d)
         end.

(** Symbolic execution in program order: the next answer a run depends on
    is found by following the scrutinees of the run, and split on. *)
Ltac next_answer t :=
  lazymatch t with
  | match ?x with _ => _ end => next_answer x
  | (match ?x with _ => _ end) _ => next_answer x
  | negb ?x => next_answer x
  | andb ?x _ => next_answer x
  | orb ?x _ => next_answer x
  | _ => t
  end.

Ltac exec_simpl :=
  cbv beta iota;
  cbn [calls filter is_call is_mutation is_console_error is_get is_append
       is_delete is_worker_call is_read app negb andb orb fst snd List.length].

Ltac exec_step b :=
  let s := next_answer b in
  lazymatch s with
  | (_, _) => fail
  | _ => destruct s eqn:?; exec_simpl
  end.

Ltac exec :=
  repeat match goal with
         | |- context [fst ?b] => exec_step b
         | |- context [snd ?b] => exec_step b
         end.

Ltac exec_unfold :=
  cbv [of_result Eff.run Eff.bind Eff.console_log Eff.console_error Eff.emit
       Eff.call Eff.call_ Eff.try_catch Eff.ret Eff.throw Eff.process_exit
       setOutput runBuild];
  exec_simpl.

(** Go through the events of a concrete trace. *)
Ltac in_events H :=
  cbn [In] in H;
  repeat match type of H with
         | _ \/ _ => destruct H as [H|H]
         | False => destruct H
         end.

(** Name the calls before the last one and the last one, when the last
    one is the call that threw. *)
Ltac failing_call :=
  match goal with
  | |- exists h ev, [?a] = _ /\ _ => exists [], a
  | |- exists h ev, [?a; ?b] = _ /\ _ => exists [a], b
  | |- exists h ev, [?a; ?b; ?c] = _ /\ _ => exists [a; b], c
  | |- exists h ev, [?a; ?b; ?c; ?d] = _ /\ _ => exists [a; b; c], d
  | |- exists h ev, [?a; ?b; ?c; ?d; ?e] = _ /\ _ => exists [a; b; c; d], e
  | |- exists h ev, [?a; ?b; ?c; ?d; ?e; ?f] = _ /\ _ =>
      exists [a; b; c; d; e], f
  end;
  split; [reflexivity|]; cbn [thrown_by is_append];
  repeat match goal with
         | |- _ /\ _ => split; [reflexivity|]
         end;
  repeat match goal with
         | H : ?x = _ |- context [?x] => rewrite H
         end;
  reflexivity.

(** Name the calls before the last one and the last one. *)
Ltac last_call :=
  match goal with
  | |- exists h ev, [?a] = _ /\ _ => exists [], a
  | |- exists h ev, [?a; ?b] = _ /\ _ => exists [a], b
  | |- exists h ev, [?a; ?b; ?c] = _ /\ _ => exists [a; b], c
  | |- exists h ev, [?a; ?b; ?c; ?d] = _ /\ _ => exists [a; b; c], d
  end;
  split; [reflexivity|]; cbn [thrown_by];
  repeat match goal with
         | H : ?x = _ |- context [?x] => rewrite H
         end;
  reflexivity.

(** * Properties *)

(** The tests of the repository, replayed. *)
Example normalize_feature_auth :
  normalizeBranchName "Feature/Auth" = "feature-auth".
Proof. reflexivity. Qed.

Example worker_name_complex :
  getWorkerName "worker" "feature/JIRA-123/auth" "main"
  = "feature-jira-123-auth-worker".
Proof. reflexivity. Qed.

Example worker_name_case_sensitive :
  getWorkerName "api" "Main" "main" = "main-api".
Proof. reflexivity. Qed.

Example basename_worker : basename "worker/worker.js" = "worker.js".
Proof. reflexivity. Qed.

Example basename_trailing : basename "dist//out/" = "out".
Proof. reflexivity. Qed.

Example entries_order :
  JsObj.Object_entries
    [("b", JsNull); ("10", JsNull); ("2", JsNull); ("01", JsNull); ("a", JsNull)]
  = [("2", JsNull); ("10", JsNull); ("b", JsNull); ("01", JsNull); ("a", JsNull)].
Proof. reflexivity. Qed.

Example syncPages_append_failure :
  let r := Eff.run (syncPages (MockRun.failing_append MockRun.enoent)
                      "account-id" Mock.baseConfig false) in
  fst r = Thrown MockRun.enoent
  /\ filter is_mutation (snd r)
     = [PagesProjectsCreate (createParams_of "account-id" Mock.baseConfig)]
  /\ filter is_append (snd r)
     = [AppendFileSync "/tmp/github_output"
          (output_line "pages-url" "https://my-project.pages.dev")].
Proof. repeat split. Qed.

Example syncWorker_append_failure :
  let r := Eff.run (syncWorker (MockRun.failing_append MockRun.enoent)
                      "account-id" (Mock.appConfig None) "main" None "/working") in
  fst r = Thrown MockRun.enoent
  /\ filter is_append (snd r)
     = [AppendFileSync "/tmp/github_output"
          (output_line "worker-url" "https://my-app.myaccount.workers.dev")]
  /\ last (snd r) (ConsoleLog "")
     = ConsoleError
         "Worker deployment failed: ENOENT: no such file or directory".
Proof. repeat split. Qed.

Example String_of_values :
  JsObj.String_of
    (JsArray [JsNumber 1 eq_refl; JsNull; JsString "a";
              JsArray [JsBoolean true; JsDecimal "0.5"]])
  = "1,,a,true,0.5"
  /\ JsObj.String_of (JsArray []) = ""
  /\ JsObj.String_of (JsRecord [("a", JsNull)]) = "[object Object]"
  /\ JsObj.String_of (JsNumber 0 eq_refl) = "0".
Proof. repeat split. Qed.

Example bindings_all_kinds :
  buildBindings
    (Some {| environment_variables := Some [("ENV", JsString "production")];
             kv_namespaces := Some [ {| kv_binding := "KV"; kv_id := "kv-id" |} ];
             d1_databases :=
               Some [ {| d1_binding := "DB"; d1_database_id := "db-id" |} ];
             r2_buckets :=
               Some [ {| r2_binding := "R2"; r2_bucket_name := "bucket" |} ] |})
    (Some [("SECRET", JsString "secret-value")])
  = [PlainText "ENV" "production"; SecretText "SECRET" "secret-value";
     KvNamespace "KV" "kv-id"; D1 "DB" "db-id"; R2Bucket "R2" "bucket"].
Proof. reflexivity. Qed.

(** ** Branch naming *)

Section StringFacts.

Lemma string_map_compose (f g : ascii -> ascii) (s : string) :
  Js.string_map f (Js.string_map g s) = Js.string_map (fun c => f (g c)) s.
Proof.
  induction s as [|c r IH]; simpl; [reflexivity|].
  now rewrite IH.
Qed.

Lemma string_map_ext (f g : ascii -> ascii) (s : string) :
  (forall c, f c = g c) -> Js.string_map f s = Js.string_map g s.
Proof.
  intros E. induction s as [|c r IH]; simpl; [reflexivity|].
  now rewrite E, IH.
Qed.

Lemma string_map_length (f : ascii -> ascii) (s : string) :
  String.length (Js.string_map f s) = String.length s.
Proof.
  induction s as [|c r IH]; simpl; congruence.
Qed.

Lemma string_map_get (f : ascii -> ascii) (s : string) (i : nat) :
  String.get i (Js.string_map f s) = option_map f (String.get i s).
Proof.
  revert i. induction s as [|c r IH]; intros i; simpl; [reflexivity|].
  destruct i; [reflexivity | apply IH].
Qed.

Lemma string_map_slash_free (f : ascii -> ascii) (s : string) :
  (forall c, is_slash (f c) = false) -> slash_free (Js.string_map f s) = true.
Proof.
  intros H. induction s as [|c r IH]; simpl; [reflexivity|].
  now rewrite H, IH.
Qed.

Lemma slash_to_dash_not_slash (c : ascii) :
  is_slash (Js.slash_to_dash c) = false.
Proof.
  unfold Js.slash_to_dash, is_slash.
  destruct (Ascii.eqb c "/") eqn:E; [reflexivity | exact E].
Qed.

(** After the replacement no slash is left. *)
Lemma replace_slashes_slash_free (s : string) :
  slash_free (Js.replace_slashes s) = true.
Proof. apply string_map_slash_free, slash_to_dash_not_slash. Qed.

(** The replacement leaves a string without slashes as it is. *)
Lemma replace_slashes_fixes (s : string) :
  slash_free s = true -> Js.replace_slashes s = s.
Proof.
  unfold Js.replace_slashes.
  induction s as [|c r IH]; simpl; intros H; [reflexivity|].
  apply andb_prop in H as [Hc Hr]. rewrite (IH Hr).
  unfold Js.slash_to_dash. unfold is_slash in Hc.
  apply negb_true_iff in Hc. now rewrite Hc.
Qed.

(** The runtime of the examples satisfies what is asked of a runtime. *)
Lemma lower_ascii_idem (c : ascii) :
  Js.lower_ascii (Js.lower_ascii c) = Js.lower_ascii c.
Proof. destruct c as [[] [] [] [] [] [] [] []]; reflexivity. Qed.

Lemma lower_ascii_keeps_non_slash (c : ascii) :
  is_slash c = false -> is_slash (Js.lower_ascii c) = false.
Proof. destruct c as [[] [] [] [] [] [] [] []]; intros H; first [exact H | reflexivity]. Qed.

Lemma ascii_toLowerCase_idempotent (s : string) :
  Js.ascii_toLowerCase (Js.ascii_toLowerCase s) = Js.ascii_toLowerCase s.
Proof.
  unfold Js.ascii_toLowerCase. rewrite string_map_compose.
  apply string_map_ext, lower_ascii_idem.
Qed.

Lemma ascii_toLowerCase_slash_free (s : string) :
  slash_free s = true -> slash_free (Js.ascii_toLowerCase s) = true.
Proof.
  unfold Js.ascii_toLowerCase.
  induction s as [|c r IH]; simpl; intros H; [reflexivity|].
  apply andb_prop in H as [Hc Hr]. apply negb_true_iff in Hc.
  now rewrite (lower_ascii_keeps_non_slash c Hc), (IH Hr).
Qed.

Lemma isProduction_refl (b : string) : isProduction b b = true.
Proof. unfold isProduction. apply String.eqb_refl. Qed.

Lemma isProduction_neq (b p : string) : b <> p -> isProduction b p = false.
Proof. unfold isProduction. intros H. now apply String.eqb_neq. Qed.

End StringFacts.

(** C3. For every base name, branch and production branch, on every
    runtime: when the branch is the production branch the worker name is
    the base name itself; otherwise it is the normalised branch, a hyphen
    and the base name; in particular [getWorkerName base b b = base]. The
    normalised branch is the runtime's [toLowerCase] of the branch in
    which every slash, and nothing else, has been turned into a hyphen.
    On the examples of the specification, which have no non-ASCII
    character, this gives feature-auth-api and
    feature-jira-123-auth-worker. *)
Theorem getWorkerName_identity {rtm : JsRuntime} (base branch prod : string) :
  (branch = prod -> getWorkerName base branch prod = base)
  /\ (branch <> prod ->
      getWorkerName base branch prod
      = normalizeBranchName branch ++ "-" ++ base)
  /\ getWorkerName base branch branch = base
  /\ normalizeBranchName branch = toLowerCase (Js.replace_slashes branch)
  /\ String.length (Js.replace_slashes branch) = String.length branch
  /\ (forall i,
        String.get i (Js.replace_slashes branch)
        = option_map (fun c => if Ascii.eqb c "/" then "-"%char else c)
            (String.get i branch))
  /\ @getWorkerName ascii_runtime "api" "feature/auth" "main"
     = "feature-auth-api"
  /\ @getWorkerName ascii_runtime "worker" "feature/JIRA-123/auth" "main"
     = "feature-jira-123-auth-worker"
  /\ @getWorkerName ascii_runtime "api" "Main" "main" = "main-api".
Proof.
  split; [|split; [|split; [|split; [|split; [|split]]]]].
  - intros ->. unfold getWorkerName. now rewrite isProduction_refl.
  - intros Hneq. unfold getWorkerName. now rewrite (isProduction_neq _ _ Hneq).
  - unfold getWorkerName. now rewrite isProduction_refl.
  - reflexivity.
  - apply string_map_length.
  - intros i. apply string_map_get.
  - repeat split.
Qed.

(** C9. On every runtime whose [toLowerCase] is idempotent and gives no
    slash on a string that has none (both hold of ECMAScript's),
    branch normalisation is idempotent: normalising a normalised branch
    changes nothing, for every branch string. *)
Theorem normalizeBranchName_idempotent {rtm : JsRuntime} :
  (forall s, toLowerCase (toLowerCase s) = toLowerCase s) ->
  (forall s, slash_free s = true -> slash_free (toLowerCase s) = true) ->
  forall b, normalizeBranchName (normalizeBranchName b) = normalizeBranchName b.
Proof.
  intros Hidem Hslash b. unfold normalizeBranchName.
  rewrite (replace_slashes_fixes (toLowerCase (Js.replace_slashes b))).
  - apply Hidem.
  - apply Hslash, replace_slashes_slash_free.
Qed.

Lemma normalizeBranchName_idempotent_witness :
  (forall s, @toLowerCase ascii_runtime (@toLowerCase ascii_runtime s)
             = @toLowerCase ascii_runtime s)
  /\ (forall s, slash_free s = true ->
                slash_free (@toLowerCase ascii_runtime s) = true)
  /\ @normalizeBranchName ascii_runtime
       (@normalizeBranchName ascii_runtime "Feature/JIRA-123/Auth")
     = "feature-jira-123-auth".
Proof.
  split; [exact ascii_toLowerCase_idempotent|].
  split; [exact ascii_toLowerCase_slash_free|].
  rewrite (@normalizeBranchName_idempotent ascii_runtime
             ascii_toLowerCase_idempotent ascii_toLowerCase_slash_free
             "Feature/JIRA-123/Auth").
  reflexivity.
Defined.

(** ** Binding translation *)

Section Bindings.

Lemma for_of_push {A B} (f : A -> B) (xs : list A) (acc : list B) :
  JsObj.for_of xs (fun acc x => JsObj.push acc (f x)) acc = (acc ++ map f xs)%list.
Proof.
  unfold JsObj.for_of, JsObj.push.
  revert acc. induction xs as [|x r IH]; intros acc; simpl.
  - now rewrite app_nil_r.
  - rewrite IH, <- app_assoc. reflexivity.
Qed.

Lemma for_of_push_pair {A B C} (f : A -> B -> C) (xs : list (A * B)) (acc : list C) :
  JsObj.for_of xs (fun acc '(a, b) => JsObj.push acc (f a b)) acc
  = (acc ++ map (fun p => f (fst p) (snd p)) xs)%list.
Proof.
  rewrite <- (for_of_push (fun p => f (fst p) (snd p))).
  unfold JsObj.for_of. revert acc.
  induction xs as [|[a b] r IH]; intros acc; simpl; [reflexivity | apply IH].
Qed.

Lemma insert_by_index_length {A} (x : N * A) (l : list (N * A)) :
  List.length (JsObj.insert_by_index x l) = S (List.length l).
Proof.
  induction l as [|y r IH]; simpl; [reflexivity|].
  destruct (fst x <? fst y)%N; simpl; [reflexivity | now rewrite IH].
Qed.

Lemma sort_by_index_length {A} (l : list (N * A)) :
  List.length (JsObj.sort_by_index l) = List.length l.
Proof.
  induction l as [|x r IH]; simpl; [reflexivity|].
  now rewrite insert_by_index_length, IH.
Qed.

Lemma props_partition_length (o : JsObject) :
  List.length (JsObj.index_props o) + List.length (JsObj.named_props o)
  = List.length o.
Proof.
  induction o as [|[k v] r IH]; simpl; [reflexivity|].
  destruct (JsObj.array_index k); simpl; lia.
Qed.

(** [Object.entries] neither drops nor invents a property. *)
Lemma Object_entries_length (o : JsObject) :
  List.length (JsObj.Object_entries o) = List.length o.
Proof.
  unfold JsObj.Object_entries.
  rewrite length_app, length_map, sort_by_index_length.
  apply props_partition_length.
Qed.


Lemma entries_of_length (o : option JsObject) :
  List.length (entries_of o)
  = match o with Some l => List.length l | None => 0 end.
Proof.
  destruct o; simpl; [apply Object_entries_length | reflexivity].
Qed.

(** The loops of [buildBindings] as five maps, concatenated. *)
Lemma buildBindings_app (cfg : option BindingsConfig) (secrets : option JsObject) :
  buildBindings cfg secrets
  = (map (fun e => PlainText (fst e) (JsObj.String_of (snd e)))
       (entries_of (opt_chain cfg environment_variables))
     ++ map (fun e => SecretText (fst e) (JsObj.String_of (snd e)))
          (entries_of secrets)
     ++ map (fun kv => KvNamespace (kv_binding kv) (kv_id kv))
          (items_of (opt_chain cfg kv_namespaces))
     ++ map (fun d1 => D1 (d1_binding d1) (d1_database_id d1))
          (items_of (opt_chain cfg d1_databases))
     ++ map (fun r2 => R2Bucket (r2_binding r2) (r2_bucket_name r2))
          (items_of (opt_chain cfg r2_buckets)))%list.
Proof.
  unfold buildBindings.
  destruct (opt_chain cfg environment_variables) as [env|];
  destruct secrets as [sec|];
  destruct (opt_chain cfg kv_namespaces) as [kvs|];
  destruct (opt_chain cfg d1_databases) as [d1s|];
  destruct (opt_chain cfg r2_buckets) as [r2s|];
  cbn [entries_of items_of map];
  rewrite ?for_of_push, ?for_of_push_pair, ?app_nil_r, <- ?app_assoc;
  reflexivity.
Qed.

End Bindings.



(** ** Project reconciliation *)

Lemma hasGitHubSource_false (p : Project) :
  source_kind p <> Some "github" -> hasGitHubSource p = false.
Proof.
  unfold hasGitHubSource, source_kind.
  destruct (opt_chain (project_source p) source_type) as [t|]; [|reflexivity].
  intros H. apply String.eqb_neq. congruence.
Qed.

Lemma status_is_404 (err : JsError) :
  err_status err = Some 404%Z -> status_is err 404 = true.
Proof. unfold status_is. now intros ->. Qed.

(** C4. When the remote project exists with a source kind other than
    github (a missing source included) and recreation is not authorised,
    [syncPages] ends the process with status 1, the last thing it does is
    write a diagnostic to the error channel, and the only call it has made
    is the initial lookup: no delete, no create, no edit. *)
Theorem syncPages_aborts_without_authorization
    (w : World) (accountId : string) (config : Config) (p : Project) :
  pages_projects_get w [] (cfg_name config) accountId = inr p ->
  source_kind p <> Some "github" ->
  let r := Eff.run (syncPages w accountId config false) in
  fst r = Exited 1
  /\ filter is_mutation (snd r) = []
  /\ calls (snd r) = [PagesProjectsGet (cfg_name config) accountId]
  /\ exists before msg, snd r = (before ++ [ConsoleError msg])%list.
Proof.
  intros Hget Hsrc.
  unfold syncPages. eff_unfold. eff_calls. rewrite Hget.
  rewrite (hasGitHubSource_false p Hsrc). eff_calls.
  repeat split.
  eexists (_ :: _ :: _ :: _ :: _ :: _ :: _ :: _ :: _ :: _ :: _ :: []), _.
  reflexivity.
Qed.

Lemma syncPages_aborts_without_authorization_witness :
  pages_projects_get Mock.direct_upload_world [] "my-project" "account-id"
    = inr Mock.direct_upload_project
  /\ source_kind Mock.direct_upload_project <> Some "github"
  /\ fst (Eff.run (syncPages Mock.direct_upload_world "account-id"
                     Mock.baseConfig false)) = Exited 1.
Proof.
  split; [reflexivity|]. split; [vm_compute; discriminate|].
  apply (syncPages_aborts_without_authorization Mock.direct_upload_world
           "account-id" Mock.baseConfig Mock.direct_upload_project).
  - reflexivity.
  - vm_compute; discriminate.
Defined.

(** The parameters of the create request, field by field. *)
Lemma createParams_of_fields (accountId : string) (config : Config) :
  createParams_of accountId config
  = {| create_account_id := accountId;
       create_name := cfg_name config;
       create_production_branch := cfg_production_branch config;
       create_source :=
         {| sc_type := "github";
            sc_config :=
              {| owner := repo_owner (cfg_repo config);
                 gh_repo_name := repo_name (cfg_repo config);
                 gh_production_branch := cfg_production_branch config;
                 deployments_enabled := true;
                 production_deployments_enabled := true;
                 preview_deployment_setting := "all";
                 preview_branch_includes :=
                   match opt_chain (cfg_preview config) preview_branches with
                   | Some l => l
                   | None => ["*"]
                   end;
                 preview_branch_excludes :=
                   match opt_chain (cfg_preview config) preview_exclude with
                   | Some l => l
                   | None => []
                   end |} |};
       create_build_config :=
         {| build_command :=
              match opt_chain (cfg_build config) build_command_decl with
              | Some s => s
              | None => ""
              end;
            destination_dir :=
              match opt_chain (cfg_build config) build_output with
              | None | Some EmptyString => "."
              | Some s => s
              end;
            root_dir :=
              match opt_chain (cfg_build config) build_root with
              | Some s => s
              | None => ""
              end |} |}.
Proof.
  unfold createParams_of, sourceConfig_of, buildConfig_of, Js.or_array,
    Js.or_string.
  destruct (opt_chain (cfg_build config) build_command_decl) as [[|]|];
    destruct (opt_chain (cfg_build config) build_output) as [[|]|];
    destruct (opt_chain (cfg_build config) build_root) as [[|]|];
    reflexivity.
Qed.

(** C5. When the remote project exists with a source kind other than
    github and recreation is authorised, the mutations [syncPages] makes
    are the delete of the project by name and then, once the delete has
    resolved, one create; edit is not called. The create carries the
    project name and production branch, the github source for the
    configured repository with deployments, production deployments and
    previews of all branches switched on and the declared preview lists
    (the wildcard and the empty list when undeclared), and the build
    configuration mapped from the declared one. *)
Theorem syncPages_deletes_then_creates
    (w : World) (accountId : string) (config : Config) (p : Project) :
  pages_projects_get w [] (cfg_name config) accountId = inr p ->
  source_kind p <> Some "github" ->
  let get := PagesProjectsGet (cfg_name config) accountId in
  let del := PagesProjectsDelete (cfg_name config) accountId in
  let create :=
    PagesProjectsCreate
      {| create_account_id := accountId;
         create_name := cfg_name config;
         create_production_branch := cfg_production_branch config;
         create_source :=
           {| sc_type := "github";
              sc_config :=
                {| owner := repo_owner (cfg_repo config);
                   gh_repo_name := repo_name (cfg_repo config);
                   gh_production_branch := cfg_production_branch config;
                   deployments_enabled := true;
                   production_deployments_enabled := true;
                   preview_deployment_setting := "all";
                   preview_branch_includes :=
                     match opt_chain (cfg_preview config) preview_branches with
                     | Some l => l
                     | None => ["*"]
                     end;
                   preview_branch_excludes :=
                     match opt_chain (cfg_preview config) preview_exclude with
                     | Some l => l
                     | None => []
                     end |} |};
         create_build_config :=
           {| build_command :=
                match opt_chain (cfg_build config) build_command_decl with
                | Some s => s
                | None => ""
                end;
              destination_dir :=
                match opt_chain (cfg_build config) build_output with
                | None | Some EmptyString => "."
                | Some s => s
                end;
              root_dir :=
                match opt_chain (cfg_build config) build_root with
                | Some s => s
                | None => ""
                end |} |} in
  filter is_mutation (snd (Eff.run (syncPages w accountId config true)))
  = match pages_projects_delete w [get] (cfg_name config) accountId with
    | None => [del; create]
    | Some _ => [del]
    end.
Proof.
  intros Hget Hsrc get del create. subst get del create.
  rewrite <- createParams_of_fields.
  unfold syncPages. eff_unfold. eff_calls. rewrite Hget.
  rewrite (hasGitHubSource_false p Hsrc). eff_calls.
  eff_cases; reflexivity.
Qed.

Lemma syncPages_deletes_then_creates_witness :
  pages_projects_get Mock.direct_upload_world [] "my-project" "account-id"
    = inr Mock.direct_upload_project
  /\ source_kind Mock.direct_upload_project <> Some "github"
  /\ filter is_mutation
    (snd (Eff.run (syncPages Mock.direct_upload_world "account-id"
                     Mock.baseConfig true)))
  = [PagesProjectsDelete "my-project" "account-id";
     PagesProjectsCreate (createParams_of "account-id" Mock.baseConfig)].
Proof.
  split; [reflexivity|]. split; [vm_compute; discriminate|].
  apply (syncPages_deletes_then_creates Mock.direct_upload_world
           "account-id" Mock.baseConfig Mock.direct_upload_project).
  - reflexivity.
  - vm_compute; discriminate.
Defined.

(** C6. When the initial lookup reports not-found, the one mutation
    [syncPages] makes is a create whose build configuration renames the
    declared fields: the build command (empty string when unset), the
    output directory as the destination directory (a dot when unset or
    empty), the root directory (empty string when unset). The declared
    command "npm run build", output "dist", root "" gives exactly those
    three values. *)
Theorem syncPages_creates_when_absent
    (w : World) (accountId : string) (config : Config) (allowRecreate : bool)
    (err : JsError) :
  pages_projects_get w [] (cfg_name config) accountId = inl err ->
  err_status err = Some 404%Z ->
  let bc := buildConfig_of config in
  let declared := opt_chain (cfg_build config) in
  filter is_mutation (snd (Eff.run (syncPages w accountId config allowRecreate)))
  = [PagesProjectsCreate (createParams_of accountId config)]
  /\ create_build_config (createParams_of accountId config) = bc
  /\ build_command bc
     = match declared build_command_decl with Some s => s | None => "" end
  /\ destination_dir bc
     = match declared build_output with
       | None | Some EmptyString => "."
       | Some s => s
       end
  /\ root_dir bc
     = match declared build_root with Some s => s | None => "" end
  /\ buildConfig_of Mock.baseConfig
     = {| build_command := "npm run build"; destination_dir := "dist";
          root_dir := "" |}.
Proof.
  intros Hget H404 bc declared.
  split; [|repeat split].
  - unfold syncPages. eff_unfold. eff_calls. rewrite Hget.
    rewrite (status_is_404 err H404). eff_calls.
    eff_cases; reflexivity.
  - subst bc declared. cbn.
    destruct (opt_chain (cfg_build config) build_command_decl) as [[|]|];
      reflexivity.
  - subst bc declared. cbn.
    destruct (opt_chain (cfg_build config) build_root) as [[|]|]; reflexivity.
Qed.

Lemma syncPages_creates_when_absent_witness :
  pages_projects_get Mock.custom_subdomain_world [] "my-project" "account-id"
    = inl Mock.not_found
  /\ err_status Mock.not_found = Some 404%Z
  /\ filter is_mutation
    (snd (Eff.run (syncPages Mock.custom_subdomain_world "account-id"
                     Mock.baseConfig false)))
  = [PagesProjectsCreate (createParams_of "account-id" Mock.baseConfig)].
Proof.
  split; [reflexivity|]. split; [reflexivity|].
  apply (syncPages_creates_when_absent Mock.custom_subdomain_world
           "account-id" Mock.baseConfig false Mock.not_found);
    reflexivity.
Defined.

(** The tests "when project exists with no source type" and "when project
    exists with GitHub source", replayed. *)
Example syncPages_null_source_aborts :
  let r := Eff.run (syncPages (Mock.world [] (inr Mock.sourceless_project))
                      "account-id" Mock.baseConfig false) in
  fst r = Exited 1 /\ filter is_mutation (snd r) = [].
Proof. split; reflexivity. Qed.

Example syncPages_github_source_edits :
  filter is_mutation
    (snd (Eff.run (syncPages (Mock.world [] (inr (Mock.github_project None)))
                     "account-id" Mock.baseConfig false)))
  = [PagesProjectsEdit "my-project" (editParams_of "account-id" Mock.baseConfig)].
Proof. reflexivity. Qed.

(** Whatever the world answers, a run of [syncPages] that returns has
    looked the project up exactly once, and its URL is spelled from the
    display name. *)
Lemma syncPages_url_from_display_name
    (w : World) (accountId : string) (config : Config) (allowRecreate : bool)
    (res : PagesResult) :
  let r := Eff.run (syncPages w accountId config allowRecreate) in
  fst r = Returned res ->
  pagesUrl res = "https://" ++ cfg_name config ++ ".pages.dev"
  /\ filter is_get (snd r) = [PagesProjectsGet (cfg_name config) accountId].
Proof.
  unfold syncPages. eff_unfold. eff_calls.
  destruct allowRecreate; eff_cases; intros H;
    solve [discriminate H | injection H as <-; split; reflexivity].
Qed.

(** C1. On the world of the repository's test "should use subdomain from
    API response for URL" (the lookup reports not-found, and any later
    lookup returns a record whose subdomain is
    custom-prefix-my-project.pages.dev), [syncPages] creates the project,
    never looks it up again, and returns the URL spelled from the display
    name, although a lookup after the run does answer with the
    authoritative subdomain. *)
Theorem syncPages_ignores_remote_subdomain :
  let w := Mock.custom_subdomain_world in
  let r := Eff.run (syncPages w "account-id" Mock.baseConfig false) in
  fst r = Returned {| pagesUrl := "https://my-project.pages.dev" |}
  /\ filter is_mutation (snd r)
     = [PagesProjectsCreate (createParams_of "account-id" Mock.baseConfig)]
  /\ filter is_get (snd r) = [PagesProjectsGet "my-project" "account-id"]
  /\ pages_projects_get w (calls (snd r)) "my-project" "account-id"
     = inr (Mock.github_project (Some "custom-prefix-my-project.pages.dev")).
Proof.
  repeat split.
Qed.

(** ** Artifact publication *)

(** C8. When the worker configuration has [deploy_previews] set to false
    and the branch is not the production branch, [syncWorker] returns
    null without throwing, and all it does is write one line to the
    console: no build command is run, no file is read, nothing is
    uploaded. *)
Theorem syncWorker_skips_disabled_previews {rtm : JsRuntime}
    (w : World) (accountId : string) (config : Config) (wc : WorkerConfig)
    (branch : string) (secrets : option JsObject) (workingDir : string) :
  cfg_worker config = Some wc ->
  worker_deploy_previews wc = Some false ->
  branch <> cfg_production_branch config ->
  let r := Eff.run (syncWorker w accountId config branch secrets workingDir) in
  fst r = Returned None
  /\ calls (snd r) = []
  /\ snd r
     = [ConsoleLog (Js.nl ++ "Preview worker deployments disabled, skipping.")].
Proof.
  intros Hwc Hprev Hbranch.
  unfold syncWorker. rewrite Hwc, Hprev, (isProduction_neq _ _ Hbranch).
  repeat split.
Qed.

Lemma syncWorker_skips_disabled_previews_witness :
  cfg_worker (Mock.appConfig (Some false)) = Some (Mock.workerConfig (Some false))
  /\ worker_deploy_previews (Mock.workerConfig (Some false)) = Some false
  /\ "feature/auth" <> cfg_production_branch (Mock.appConfig (Some false))
  /\ fst (Eff.run (syncWorker (Mock.world [] (inl Mock.not_found)) "account-id"
                  (Mock.appConfig (Some false)) "feature/auth" None "/working"))
  = Returned None.
Proof.
  split; [reflexivity|]. split; [reflexivity|].
  split; [vm_compute; discriminate|].
  apply (syncWorker_skips_disabled_previews (Mock.world [] (inl Mock.not_found))
           "account-id" (Mock.appConfig (Some false))
           (Mock.workerConfig (Some false)) "feature/auth" None "/working").
  - reflexivity.
  - reflexivity.
  - vm_compute; discriminate.
Defined.

(** C2, as the specification words it, fails: with the project named
    my-app and the worker's own name declared as my-worker, the production
    upload goes out under my-app. *)
Lemma syncWorker_identity_not_from_worker_name :
  ~ (forall (w : World) (accountId : string) (config : Config)
            (wc : WorkerConfig) (branch : string) (secrets : option JsObject)
            (workingDir script : string) (params : UpdateParams),
       cfg_worker config = Some wc ->
       In (WorkersScriptsUpdate script params)
          (snd (Eff.run (syncWorker w accountId config branch secrets workingDir))) ->
       script = spec_identity config wc branch).
Proof.
  intros H.
  specialize (H (Mock.world [] (inl Mock.not_found)) "account-id"
                (Mock.appConfig None) (Mock.workerConfig None) "main" None
                "/working" "my-app"
                (updateParams_of "account-id" (Mock.workerConfig None) None
                   Mock.script_text)
                eq_refl).
  assert (E : "my-app" = "my-worker"); [|discriminate E].
  apply H. vm_compute. do 6 right. left. reflexivity.
Qed.

(** C2, amended. Every script [syncWorker] uploads is named from the
    project's display name and the branch: the name is
    [getWorkerName] of the project name, the branch and the production
    branch, whatever name the worker configuration declares. *)
Theorem syncWorker_identity_from_project_name {rtm : JsRuntime}
    (w : World) (accountId : string) (config : Config) (branch : string)
    (secrets : option JsObject) (workingDir script : string)
    (params : UpdateParams) :
  In (WorkersScriptsUpdate script params)
     (snd (Eff.run (syncWorker w accountId config branch secrets workingDir))) ->
  script = getWorkerName (cfg_name config) branch (cfg_production_branch config).
Proof.
  unfold syncWorker.
  destruct (cfg_worker config) as [wc|].
  2:{ eff_unfold. cbn [In app snd]. intros [H|[]]. discriminate H. }
  destruct (negb (isProduction branch (cfg_production_branch config))
            && match worker_deploy_previews wc with
               | Some false => true
               | _ => false
               end).
  { eff_unfold. cbn [In app snd]. intros [H|[]]. discriminate H. }
  eff_unfold. eff_calls. eff_cases; cbn [In];
    intros H; repeat (destruct H as [H|H]; [try discriminate H|]);
    try contradiction; injection H as <- _; reflexivity.
Qed.

Lemma syncWorker_identity_from_project_name_witness :
  In (WorkersScriptsUpdate "my-app"
        (updateParams_of "account-id" (Mock.workerConfig None) None
           Mock.script_text))
     (snd (Eff.run (syncWorker (Mock.world [] (inl Mock.not_found)) "account-id"
                      (Mock.appConfig None) "main" None "/working")))
  /\ "my-app" = getWorkerName "my-app" "main" "main".
Proof.
  split; [vm_compute; do 6 right; left; reflexivity|].
  apply (syncWorker_identity_from_project_name
           (Mock.world [] (inl Mock.not_found)) "account-id"
           (Mock.appConfig None) "main" None "/working" "my-app"
           (updateParams_of "account-id" (Mock.workerConfig None) None
              Mock.script_text)).
  vm_compute. do 6 right. left. reflexivity.
Defined.

(** * Further properties *)

(** ** Branch naming *)

(** X1. On every runtime whose [toLowerCase] gives no slash on a string
    that has none (as ECMAScript's does), a normalised branch name
    contains no slash, whatever the branch. *)
Theorem normalizeBranchName_slash_free {rtm : JsRuntime} :
  (forall s, slash_free s = true -> slash_free (toLowerCase s) = true) ->
  forall b, slash_free (normalizeBranchName b) = true.
Proof.
  intros Hslash b. unfold normalizeBranchName.
  apply Hslash, replace_slashes_slash_free.
Qed.

Lemma normalizeBranchName_slash_free_witness :
  (forall s, slash_free s = true ->
             slash_free (@toLowerCase ascii_runtime s) = true)
  /\ slash_free (@normalizeBranchName ascii_runtime "feature/JIRA-123/auth")
     = true.
Proof.
  split; [exact ascii_toLowerCase_slash_free|].
  apply (@normalizeBranchName_slash_free ascii_runtime
           ascii_toLowerCase_slash_free "feature/JIRA-123/auth").
Defined.

Lemma append_length (s t : string) :
  String.length (s ++ t) = String.length s + String.length t.
Proof. induction s as [|c r IH]; simpl; [reflexivity | now rewrite IH]. Qed.

Lemma append_cancel_r (s1 s2 t : string) :
  s1 ++ t = s2 ++ t -> s1 = s2.
Proof.
  revert s2. induction s1 as [|c r IH]; intros [|d r2] H; simpl in H.
  - reflexivity.
  - apply (f_equal String.length) in H. simpl in H.
    rewrite append_length in H. lia.
  - apply (f_equal String.length) in H. simpl in H.
    rewrite append_length in H. lia.
  - injection H as -> H. f_equal. now apply IH.
Qed.

(** X2. On a branch other than the production branch the worker name is
    never the base name: it is the normalised branch, a hyphen and the
    base name, hence longer than the base name by the length of the
    normalised branch plus one. So a preview never takes the name of the
    production worker of the same project. *)
Theorem preview_name_differs_from_base {rtm : JsRuntime} (base branch prod : string) :
  branch <> prod ->
  getWorkerName base branch prod <> base
  /\ String.length (getWorkerName base branch prod)
     = String.length (normalizeBranchName branch) + 1 + String.length base.
Proof.
  intros Hneq.
  assert (L : String.length (getWorkerName base branch prod)
              = String.length (normalizeBranchName branch) + 1
                + String.length base).
  { unfold getWorkerName. rewrite (isProduction_neq _ _ Hneq).
    cbv zeta. rewrite !append_length. simpl. lia. }
  split; [|exact L].
  intros E. rewrite E in L. lia.
Qed.

Lemma preview_name_differs_from_base_witness :
  "feature/auth" <> "main"
  /\ getWorkerName "api" "feature/auth" "main" <> "api".
Proof.
  split; [discriminate|].
  apply (preview_name_differs_from_base "api" "feature/auth" "main").
  discriminate.
Defined.

(** X3. Two preview branches are given the same worker name exactly when
    their normalised names agree; so branches that differ only in case or
    in slash against hyphen share one worker. *)
Theorem preview_names_collide_iff {rtm : JsRuntime} (base b1 b2 prod : string) :
  b1 <> prod -> b2 <> prod ->
  (getWorkerName base b1 prod = getWorkerName base b2 prod
   <-> normalizeBranchName b1 = normalizeBranchName b2).
Proof.
  intros H1 H2. unfold getWorkerName.
  rewrite (isProduction_neq _ _ H1), (isProduction_neq _ _ H2). cbv zeta.
  split.
  - intros E. apply (append_cancel_r _ _ ("-" ++ base)). exact E.
  - now intros ->.
Qed.

Lemma preview_names_collide_iff_witness :
  "Feature/A" <> "main" /\ "feature-a" <> "main"
  /\ getWorkerName "api" "Feature/A" "main" = getWorkerName "api" "feature-a" "main".
Proof.
  split; [discriminate|]. split; [discriminate|].
  apply (preview_names_collide_iff "api" "Feature/A" "feature-a" "main");
    [discriminate | discriminate | reflexivity].
Defined.

(** ** Binding translation *)









Lemma buildBindings_length (cfg : option BindingsConfig) (secrets : option JsObject) :
  List.length (buildBindings cfg secrets) = entry_count cfg secrets.
Proof.
  rewrite buildBindings_app.
  rewrite !length_app, !length_map, !entries_of_length.
  unfold entry_count, items_of. cbv zeta beta.
  destruct (opt_chain cfg environment_variables), secrets,
    (opt_chain cfg kv_namespaces), (opt_chain cfg d1_databases),
    (opt_chain cfg r2_buckets); cbn [List.length]; lia.
Qed.

(** X6. The bindings array is empty exactly when the five sources have no
    entry at all: a null configuration, null secrets, absent members and
    empty objects or arrays all count for nothing. *)
Theorem buildBindings_empty_iff
    (cfg : option BindingsConfig) (secrets : option JsObject) :
  buildBindings cfg secrets = [] <-> entry_count cfg secrets = 0.
Proof.
  rewrite <- buildBindings_length.
  split; [now intros -> | apply length_zero_iff_nil].
Qed.

(** ** Project reconciliation *)

Lemma status_is_not_404 (err : JsError) :
  err_status err <> Some 404%Z -> status_is err 404 = false.
Proof.
  unfold status_is. destruct (err_status err) as [s|]; [|reflexivity].
  intros H. apply Z.eqb_neq. congruence.
Qed.

Lemma hasGitHubSource_true (p : Project) :
  source_kind p = Some "github" -> hasGitHubSource p = true.
Proof. unfold hasGitHubSource, source_kind. now intros ->. Qed.

Lemma hasGitHubSource_false_inv (p : Project) :
  hasGitHubSource p = false -> source_kind p <> Some "github".
Proof.
  intros H E. rewrite (hasGitHubSource_true p E) in H. discriminate H.
Qed.

(** X7. When the initial lookup fails with anything but status 404 (no
    status at all included), [syncPages] throws that very error and has
    made no other call: nothing is created, edited or deleted. *)
Theorem syncPages_lookup_error_propagates
    (w : World) (accountId : string) (config : Config) (allowRecreate : bool)
    (err : JsError) :
  pages_projects_get w [] (cfg_name config) accountId = inl err ->
  err_status err <> Some 404%Z ->
  let r := Eff.run (syncPages w accountId config allowRecreate) in
  fst r = Thrown err
  /\ calls (snd r) = [PagesProjectsGet (cfg_name config) accountId].
Proof.
  intros Hget Hstatus.
  unfold syncPages. eff_unfold. run_calls. rewrite Hget.
  rewrite (status_is_not_404 err Hstatus). split; reflexivity.
Qed.

Lemma syncPages_lookup_error_propagates_witness :
  pages_projects_get (Mock.world [] (inl MockRun.server_error)) []
    "my-project" "account-id" = inl MockRun.server_error
  /\ err_status MockRun.server_error <> Some 404%Z
  /\ fst (Eff.run (syncPages (Mock.world [] (inl MockRun.server_error))
                     "account-id" Mock.baseConfig false))
     = Thrown MockRun.server_error.
Proof.
  split; [reflexivity|]. split; [vm_compute; discriminate|].
  apply (syncPages_lookup_error_propagates
           (Mock.world [] (inl MockRun.server_error)) "account-id"
           Mock.baseConfig false MockRun.server_error).
  - reflexivity.
  - vm_compute; discriminate.
Defined.

(** The parameters of the edit request, field by field. *)
Lemma editParams_of_fields (accountId : string) (config : Config) :
  editParams_of accountId config
  = {| edit_account_id := accountId;
       edit_production_branch := cfg_production_branch config;
       edit_source :=
         {| sc_type := "github";
            sc_config :=
              {| owner := repo_owner (cfg_repo config);
                 gh_repo_name := repo_name (cfg_repo config);
                 gh_production_branch := cfg_production_branch config;
                 deployments_enabled := true;
                 production_deployments_enabled := true;
                 preview_deployment_setting := "all";
                 preview_branch_includes :=
                   match opt_chain (cfg_preview config) preview_branches with
                   | Some l => l
                   | None => ["*"]
                   end;
                 preview_branch_excludes :=
                   match opt_chain (cfg_preview config) preview_exclude with
                   | Some l => l
                   | None => []
                   end |} |};
       edit_build_config :=
         {| build_command :=
              match opt_chain (cfg_build config) build_command_decl with
              | Some s => s
              | None => ""
              end;
            destination_dir :=
              match opt_chain (cfg_build config) build_output with
              | None | Some EmptyString => "."
              | Some s => s
              end;
            root_dir :=
              match opt_chain (cfg_build config) build_root with
              | Some s => s
              | None => ""
              end |};
       edit_deployment_configs := {| dc_preview := []; dc_production := [] |} |}.
Proof.
  unfold editParams_of, sourceConfig_of, buildConfig_of, Js.or_array,
    Js.or_string.
  destruct (opt_chain (cfg_build config) build_command_decl) as [[|]|];
    destruct (opt_chain (cfg_build config) build_output) as [[|]|];
    destruct (opt_chain (cfg_build config) build_root) as [[|]|];
    reflexivity.
Qed.

(** X8. When the remote project exists with the github source, the one
    mutation [syncPages] makes is an edit of that project, whether or not
    recreation is authorised: nothing is deleted or created. The edit
    carries the production branch, the github source for the configured
    repository, the build configuration mapped from the declared one, and
    empty preview and production deployment configurations. The run
    throws the edit's error when the edit fails; when it resolves, the run
    returns the URL, unless GITHUB_OUTPUT is set and the append to that
    file fails, in which case it throws the append's error. *)
Theorem syncPages_edits_github_project
    (w : World) (accountId : string) (config : Config) (allowRecreate : bool)
    (p : Project) :
  pages_projects_get w [] (cfg_name config) accountId = inr p ->
  source_kind p = Some "github" ->
  let r := Eff.run (syncPages w accountId config allowRecreate) in
  let get := PagesProjectsGet (cfg_name config) accountId in
  let params :=
    {| edit_account_id := accountId;
       edit_production_branch := cfg_production_branch config;
       edit_source :=
         {| sc_type := "github";
            sc_config :=
              {| owner := repo_owner (cfg_repo config);
                 gh_repo_name := repo_name (cfg_repo config);
                 gh_production_branch := cfg_production_branch config;
                 deployments_enabled := true;
                 production_deployments_enabled := true;
                 preview_deployment_setting := "all";
                 preview_branch_includes :=
                   match opt_chain (cfg_preview config) preview_branches with
                   | Some l => l
                   | None => ["*"]
                   end;
                 preview_branch_excludes :=
                   match opt_chain (cfg_preview config) preview_exclude with
                   | Some l => l
                   | None => []
                   end |} |};
       edit_build_config :=
         {| build_command :=
              match opt_chain (cfg_build config) build_command_decl with
              | Some s => s
              | None => ""
              end;
            destination_dir :=
              match opt_chain (cfg_build config) build_output with
              | None | Some EmptyString => "."
              | Some s => s
              end;
            root_dir :=
              match opt_chain (cfg_build config) build_root with
              | Some s => s
              | None => ""
              end |};
       edit_deployment_configs := {| dc_preview := []; dc_production := [] |} |} in
  let edit := PagesProjectsEdit (cfg_name config) params in
  let url := "https://" ++ cfg_name config ++ ".pages.dev" in
  filter is_mutation (snd r) = [edit]
  /\ fst r
     = match pages_projects_edit w [get] (cfg_name config) params with
       | Some err => Thrown err
       | None =>
           match env_GITHUB_OUTPUT w with
           | Some (String c f) =>
               match appendFileSync w [get; edit] (String c f)
                       (output_line "pages-url" url) with
               | Some err => Thrown err
               | None => Returned {| pagesUrl := url |}
               end
           | _ => Returned {| pagesUrl := url |}
           end
       end.
Proof.
  intros Hget Hsrc r get params edit url. subst r get params edit url.
  rewrite <- editParams_of_fields.
  unfold syncPages. eff_unfold. run_calls. rewrite Hget.
  rewrite (hasGitHubSource_true p Hsrc). run_calls.
  destruct (pages_projects_edit w _ (cfg_name config) _);
    cbv beta iota; run_calls; [split; reflexivity|].
  destruct (env_GITHUB_OUTPUT w) as [[|c f]|];
    cbn [Js.truthy_string Js.or_string]; cbv beta iota; run_calls;
    try (split; reflexivity).
  unfold output_line.
  destruct (appendFileSync w _ (String c f) _); split; reflexivity.
Qed.

Lemma syncPages_edits_github_project_witness :
  source_kind (Mock.github_project None) = Some "github"
  /\ filter is_mutation
       (snd (Eff.run (syncPages (Mock.world [] (inr (Mock.github_project None)))
                        "account-id" Mock.baseConfig true)))
     = [PagesProjectsEdit "my-project" (editParams_of "account-id" Mock.baseConfig)].
Proof.
  split; [reflexivity|].
  apply (syncPages_edits_github_project
           (Mock.world [] (inr (Mock.github_project None))) "account-id"
           Mock.baseConfig true (Mock.github_project None));
    reflexivity.
Defined.

(** X9. [syncPages] deletes a project only when recreation is authorised
    and the lookup found the project with a source other than github; the
    project it deletes is the configured one. In particular no world makes
    it delete anything without the authorisation. *)
Theorem syncPages_delete_requires_authorization
    (w : World) (accountId : string) (config : Config) (allowRecreate : bool)
    (project account : string) :
  In (PagesProjectsDelete project account)
     (snd (Eff.run (syncPages w accountId config allowRecreate))) ->
  allowRecreate = true
  /\ project = cfg_name config
  /\ account = accountId
  /\ exists p,
       pages_projects_get w [] (cfg_name config) accountId = inr p
       /\ source_kind p <> Some "github".
Proof.
  unfold syncPages. eff_unfold. run_calls.
  destruct allowRecreate; run_cases;
    try (destruct (Js.truthy_string (env_GITHUB_OUTPUT w)); run_calls);
    cbn [In]; intros H;
    repeat (destruct H as [H|H]; [try discriminate H|]); try contradiction;
    injection H as <- <-;
    (split; [reflexivity|]); (split; [reflexivity|]); (split; [reflexivity|]);
    eexists; (split; [reflexivity | now apply hasGitHubSource_false_inv]).
Qed.

Lemma syncPages_delete_requires_authorization_witness :
  In (PagesProjectsDelete "my-project" "account-id")
     (snd (Eff.run (syncPages Mock.direct_upload_world "account-id"
                      Mock.baseConfig true)))
  /\ exists p,
       pages_projects_get Mock.direct_upload_world []
         (cfg_name Mock.baseConfig) "account-id" = inr p
       /\ source_kind p <> Some "github".
Proof.
  split; [vm_compute; do 7 right; left; reflexivity|].
  apply (syncPages_delete_requires_authorization Mock.direct_upload_world
           "account-id" Mock.baseConfig true "my-project" "account-id").
  vm_compute. do 7 right. left. reflexivity.
Defined.

(** X10. The only thing [syncPages] ever appends is the line
    [pages-url=<url>], to the file GITHUB_OUTPUT names, and only when that
    variable is set and not empty. A run that returns has appended it
    exactly once when the variable is set; a run that exits has appended
    nothing; and a run that throws has attempted the append only if the
    append is the call that failed. *)
Theorem syncPages_output_attempts
    (w : World) (accountId : string) (config : Config) (allowRecreate : bool) :
  let r := Eff.run (syncPages w accountId config allowRecreate) in
  let line :=
    output_line "pages-url" ("https://" ++ cfg_name config ++ ".pages.dev") in
  (forall f data,
     In (AppendFileSync f data) (snd r) ->
     env_GITHUB_OUTPUT w = Some f /\ f <> "" /\ data = line)
  /\ (forall res,
        fst r = Returned res ->
        filter is_append (snd r)
        = match env_GITHUB_OUTPUT w with
          | Some (String c f) => [AppendFileSync (String c f) line]
          | _ => []
          end)
  /\ (forall code, fst r = Exited code -> filter is_append (snd r) = [])
  /\ (forall err,
        fst r = Thrown err ->
        filter is_append (snd r) <> [] ->
        exists h a,
          calls (snd r) = (h ++ [a])%list
          /\ is_append a = true
          /\ thrown_by w h a = Some err).
Proof.
  unfold syncPages, output_line. exec_unfold.
  destruct (env_GITHUB_OUTPUT w) as [[|c f]|];
    cbn [Js.truthy_string Js.or_string]; exec_simpl; exec;
    (split; [intros ? ? H; in_events H; try discriminate H;
             injection H as <- <-; repeat split; discriminate|]);
    (split; [intros ? H; first [discriminate H | reflexivity]|]);
    (split; [intros ? H; first [discriminate H | reflexivity]|]);
    intros ? H Hne;
    first [ discriminate H
          | exfalso; apply Hne; reflexivity
          | injection H as <-; failing_call ].
Qed.

(** X11. When [syncPages] throws, the error is the one the world gave to
    the last call made (the lookup, the delete, the create, the edit or
    the append to the output file), unchanged, and no call follows the
    failure. *)
Theorem syncPages_throws_last_call_error
    (w : World) (accountId : string) (config : Config) (allowRecreate : bool)
    (err : JsError) :
  let r := Eff.run (syncPages w accountId config allowRecreate) in
  fst r = Thrown err ->
  exists h ev, calls (snd r) = (h ++ [ev])%list /\ thrown_by w h ev = Some err.
Proof.
  unfold syncPages. eff_unfold. run_calls.
  destruct allowRecreate; run_cases;
    try (destruct (Js.truthy_string (env_GITHUB_OUTPUT w)); run_calls);
    intros H; try discriminate H; injection H as <-; last_call.
Qed.

Lemma syncPages_throws_last_call_error_witness :
  fst (Eff.run (syncPages (MockRun.failing_append MockRun.enoent)
                  "account-id" Mock.baseConfig false))
  = Thrown MockRun.enoent
  /\ exists h ev,
       calls (snd (Eff.run (syncPages (MockRun.failing_append MockRun.enoent)
                              "account-id" Mock.baseConfig false)))
       = (h ++ [ev])%list
       /\ thrown_by (MockRun.failing_append MockRun.enoent) h ev
          = Some MockRun.enoent.
Proof.
  split; [reflexivity|].
  apply (syncPages_throws_last_call_error
           (MockRun.failing_append MockRun.enoent) "account-id"
           Mock.baseConfig false MockRun.enoent).
  reflexivity.
Defined.

(** X12. Every create or edit request of a run carries the github source
    for the configured repository with deployments, production deployments
    and previews of all branches switched on; the preview include list is
    the declared one, an empty list included, and the wildcard only when
    none is declared. *)
Theorem syncPages_request_source
    (w : World) (accountId : string) (config : Config) (allowRecreate : bool)
    (ev : Event) (sc : SourceConfig) :
  In ev (snd (Eff.run (syncPages w accountId config allowRecreate))) ->
  request_source ev = Some sc ->
  sc_type sc = "github"
  /\ owner (sc_config sc) = repo_owner (cfg_repo config)
  /\ gh_repo_name (sc_config sc) = repo_name (cfg_repo config)
  /\ gh_production_branch (sc_config sc) = cfg_production_branch config
  /\ deployments_enabled (sc_config sc) = true
  /\ production_deployments_enabled (sc_config sc) = true
  /\ preview_deployment_setting (sc_config sc) = "all"
  /\ preview_branch_includes (sc_config sc)
     = match opt_chain (cfg_preview config) preview_branches with
       | Some l => l
       | None => ["*"]
       end
  /\ preview_branch_excludes (sc_config sc)
     = match opt_chain (cfg_preview config) preview_exclude with
       | Some l => l
       | None => []
       end.
Proof.
  unfold syncPages. eff_unfold. run_calls.
  destruct allowRecreate; run_cases;
    try (destruct (Js.truthy_string (env_GITHUB_OUTPUT w)); run_calls);
    cbn [In]; intros H Hsrc;
    repeat (destruct H as [H|H];
            [subst ev; cbn [request_source] in Hsrc; try discriminate Hsrc|]);
    try contradiction;
    injection Hsrc as <-; repeat split.
Qed.

Lemma syncPages_request_source_witness :
  In (PagesProjectsCreate (createParams_of "account-id" Mock.baseConfig))
     (snd (Eff.run (syncPages Mock.custom_subdomain_world "account-id"
                      Mock.baseConfig false)))
  /\ preview_deployment_setting (sc_config (sourceConfig_of Mock.baseConfig))
     = "all".
Proof.
  split; [vm_compute; do 6 right; left; reflexivity|].
  apply (syncPages_request_source Mock.custom_subdomain_world "account-id"
           Mock.baseConfig false
           (PagesProjectsCreate (createParams_of "account-id" Mock.baseConfig))
           (sourceConfig_of Mock.baseConfig)).
  - vm_compute. do 6 right. left. reflexivity.
  - reflexivity.
Defined.

(** ** Artifact publication *)

Lemma isProduction_false_inv (b p : string) :
  isProduction b p = false -> b <> p.
Proof. unfold isProduction. intros H. now apply String.eqb_neq. Qed.

Lemma isProduction_true_inv (b p : string) :
  isProduction b p = true -> b = p.
Proof. unfold isProduction. intros H. now apply String.eqb_eq. Qed.

Ltac worker_paths config branch :=
  unfold syncWorker;
  let wc := fresh "wc" in
  let Hwc := fresh "Hwc" in
  let Hprod := fresh "Hprod" in
  let Hprev := fresh "Hprev" in
  destruct (cfg_worker config) as [wc|] eqn:Hwc;
  [ destruct (isProduction branch (cfg_production_branch config)) eqn:Hprod;
    destruct (worker_deploy_previews wc) as [[|]|] eqn:Hprev;
    cbn [negb andb] | ];
  eff_unfold; run_calls; run_cases;
  try (destruct (Js.truthy_string (env_GITHUB_OUTPUT _)); run_calls).

(** X13. [syncWorker] makes no call at all exactly when there is no worker
    configuration, or the branch is not the production branch and
    [deploy_previews] is false; it then returns null. On the production
    branch the flag is not consulted. *)
Theorem syncWorker_skip_iff {rtm : JsRuntime}
    (w : World) (accountId : string) (config : Config) (branch : string)
    (secrets : option JsObject) (workingDir : string) :
  let r := Eff.run (syncWorker w accountId config branch secrets workingDir) in
  (calls (snd r) = [] <-> worker_skipped config branch)
  /\ (calls (snd r) = [] -> fst r = Returned None).
Proof.
  split; [split|].
  - worker_paths config branch; intros H; try discriminate H.
    + right. exists wc. split; [exact Hwc|].
      split; [now apply isProduction_false_inv | exact Hprev].
    + now left.
  - intros [Hnone | [wc' [Hsome [Hneq Hprev']]]].
    + unfold syncWorker. rewrite Hnone. reflexivity.
    + unfold syncWorker. rewrite Hsome, Hprev', (isProduction_neq _ _ Hneq).
      reflexivity.
  - worker_paths config branch; intros H; try discriminate H; reflexivity.
Qed.

(** X14. Whatever [syncWorker] uploads is the content it has just read
    from the entry point under the working directory, with the metadata
    computed from the worker configuration and the secrets; and when a
    build command is declared, the upload only comes after that command
    succeeded. *)
Theorem syncWorker_uploads_what_it_read {rtm : JsRuntime}
    (w : World) (accountId : string) (config : Config) (branch : string)
    (secrets : option JsObject) (workingDir script : string)
    (params : UpdateParams) :
  In (WorkersScriptsUpdate script params)
     (snd (Eff.run (syncWorker w accountId config branch secrets workingDir))) ->
  exists wc content,
    cfg_worker config = Some wc
    /\ readFileSync w (build_calls wc workingDir)
         (workingDir ++ "/" ++ worker_main wc) = inr content
    /\ params = updateParams_of accountId wc secrets content
    /\ forall cmd, In (ExecSync cmd workingDir) (build_calls wc workingDir) ->
                   execSync w [] cmd workingDir = None.
Proof.
  worker_paths config branch; cbn [In]; intros H;
    repeat (destruct H as [H|H]; [try discriminate H|]); try contradiction;
    injection H as _ <-; eexists; eexists;
    (split; [reflexivity|]); unfold build_calls;
    match goal with
    | Hb : Js.truthy_string (worker_build_command _) = _ |- _ => rewrite Hb
    end;
    (split; [eassumption|]); (split; [reflexivity|]);
    intros cmd Hin; cbn [In] in Hin;
    try contradiction; destruct Hin as [Hin|[]];
    injection Hin as <-; assumption.
Qed.

Lemma syncWorker_uploads_what_it_read_witness :
  In (WorkersScriptsUpdate "my-app"
        (updateParams_of "account-id" (Mock.workerConfig None) None
           Mock.script_text))
     (snd (Eff.run (syncWorker (Mock.world [] (inl Mock.not_found)) "account-id"
                      (Mock.appConfig None) "main" None "/working")))
  /\ exists wc content,
       cfg_worker (Mock.appConfig None) = Some wc
       /\ readFileSync (Mock.world [] (inl Mock.not_found))
            (build_calls wc "/working") ("/working" ++ "/" ++ worker_main wc)
          = inr content
       /\ updateParams_of "account-id" (Mock.workerConfig None) None
            Mock.script_text
          = updateParams_of "account-id" wc None content
       /\ forall cmd, In (ExecSync cmd "/working") (build_calls wc "/working") ->
                      execSync (Mock.world [] (inl Mock.not_found)) [] cmd
                        "/working" = None.
Proof.
  split; [vm_compute; do 6 right; left; reflexivity|].
  apply (syncWorker_uploads_what_it_read
           (Mock.world [] (inl Mock.not_found)) "account-id"
           (Mock.appConfig None) "main" None "/working" "my-app").
  vm_compute. do 6 right. left. reflexivity.
Defined.


(** X16. The only things [syncWorker] ever appends are the [worker-url]
    line and the [worker-name] line, to the file GITHUB_OUTPUT names, and
    only when that variable is set and not empty. A run that has published
    has appended the two lines in that order when the variable is set; a
    skipped publication has appended nothing; and a run that throws has
    attempted an append only if an append is the call that failed. *)
Theorem syncWorker_output_attempts {rtm : JsRuntime}
    (w : World) (accountId : string) (config : Config) (branch : string)
    (secrets : option JsObject) (workingDir : string) :
  let r := Eff.run (syncWorker w accountId config branch secrets workingDir) in
  let name :=
    getWorkerName (cfg_name config) branch (cfg_production_branch config) in
  (forall f data,
     In (AppendFileSync f data) (snd r) ->
     env_GITHUB_OUTPUT w = Some f /\ f <> ""
     /\ (data = output_line "worker-name" name
         \/ exists subdomain,
              data = output_line "worker-url"
                       ("https://" ++ name ++ "." ++ subdomain ++ ".workers.dev")))
  /\ (forall res,
        fst r = Returned (Some res) ->
        filter is_append (snd r)
        = match env_GITHUB_OUTPUT w with
          | Some (String c f) =>
              [AppendFileSync (String c f)
                 (output_line "worker-url" (workerUrl res));
               AppendFileSync (String c f)
                 (output_line "worker-name" (workerName res))]
          | _ => []
          end)
  /\ (fst r = Returned None -> filter is_append (snd r) = [])
  /\ (forall err,
        fst r = Thrown err ->
        filter is_append (snd r) <> [] ->
        exists h a,
          calls (snd r) = (h ++ [a])%list
          /\ is_append a = true
          /\ thrown_by w h a = Some err).
Proof.
  unfold syncWorker, output_line. exec_unfold.
  destruct (env_GITHUB_OUTPUT w) as [[|c f]|];
    cbn [Js.truthy_string Js.or_string]; exec_simpl; exec;
    (split; [intros ? ? H; in_events H; try discriminate H;
             injection H as <- <-;
             (split; [reflexivity|]); (split; [discriminate|]);
             first [left; reflexivity | right; eexists; reflexivity]|]);
    (split; [intros ? H;
             first [discriminate H | injection H as <-; reflexivity]|]);
    (split; [intros H; first [discriminate H | reflexivity]|]);
    intros ? H Hne;
    first [ discriminate H
          | exfalso; apply Hne; reflexivity
          | injection H as <-; failing_call ].
Qed.



Lemma append_empty_r (s : string) : s ++ "" = s.
Proof. induction s as [|c r IH]; simpl; [reflexivity | now rewrite IH]. Qed.

Lemma append_snoc (s r : string) (c : ascii) :
  (s ++ String c "") ++ r = s ++ String c r.
Proof. induction s as [|d t IH]; simpl; [reflexivity | now rewrite IH]. Qed.

Lemma basename_scan_segment (f seg last : string) :
  slash_free f = true ->
  basename_scan f seg last
  = match seg ++ f with
    | EmptyString => last
    | s => s
    end.
Proof.
  revert seg. induction f as [|c r IH]; intros seg Hf; simpl.
  - rewrite append_empty_r. now destruct seg.
  - simpl in Hf. apply andb_prop in Hf as [Hc Hr].
    unfold is_slash in Hc. apply negb_true_iff in Hc. rewrite Hc.
    rewrite (IH _ Hr), append_snoc. reflexivity.
Qed.

Lemma basename_scan_directory (d f seg last : string) :
  exists last', basename_scan (d ++ "/" ++ f) seg last = basename_scan f "" last'.
Proof.
  revert seg last. induction d as [|c r IH]; intros seg last; simpl.
  - eexists. reflexivity.
  - destruct (Ascii.eqb c "/"); apply IH.
Qed.

(** X18. The upload names its module and its file by the last segment of
    the entry point: for an entry point that is a file name, alone or
    behind any directory path, both are that file name. *)
Theorem upload_named_by_file_name
    (accountId : string) (wc : WorkerConfig) (secrets : option JsObject)
    (content dir file : string) :
  worker_main wc = file \/ worker_main wc = dir ++ "/" ++ file ->
  slash_free file = true ->
  file <> "" ->
  let params := updateParams_of accountId wc secrets content in
  main_module (update_metadata params) = file
  /\ map file_name (update_files params) = [file]
  /\ map file_parts (update_files params) = [[content]].
Proof.
  intros Hmain Hfree Hne params.
  assert (B : basename (worker_main wc) = file).
  { unfold basename. destruct Hmain as [-> | ->].
    - rewrite (basename_scan_segment file "" "" Hfree). simpl.
      destruct file; [contradiction|reflexivity].
    - destruct (basename_scan_directory dir file "" "") as [last' ->].
      rewrite (basename_scan_segment file "" last' Hfree). simpl.
      destruct file; [contradiction|reflexivity]. }
  subst params. cbn. rewrite B. repeat split.
Qed.

Lemma upload_named_by_file_name_witness :
  worker_main (Mock.workerConfig None) = "worker" ++ "/" ++ "worker.js"
  /\ main_module
       (update_metadata
          (updateParams_of "account-id" (Mock.workerConfig None) None
             Mock.script_text))
     = "worker.js".
Proof.
  split; [reflexivity|].
  apply (upload_named_by_file_name "account-id" (Mock.workerConfig None) None
           Mock.script_text "worker" "worker.js").
  - right. reflexivity.
  - reflexivity.
  - discriminate.
Defined.

(** ** The entry point *)

(** What a run of [syncPages] adds to the trace, from any point of a
    process: it exits with status 1 only, deletes only when authorised,
    runs nothing of the worker, reads no file, and has made a mutation
    whenever it returns. *)
Lemma syncPages_from
    (w : World) (accountId : string) (config : Config) (allowRecreate : bool)
    (tr0 : list Event) :
  exists delta,
    snd (syncPages w accountId config allowRecreate tr0) = (tr0 ++ delta)%list
    /\ (forall code,
          fst (syncPages w accountId config allowRecreate tr0) = Exited code ->
          code = 1%Z)
    /\ (forall n a, In (PagesProjectsDelete n a) delta -> allowRecreate = true)
    /\ filter is_worker_call delta = []
    /\ filter is_read delta = []
    /\ (forall res,
          fst (syncPages w accountId config allowRecreate tr0) = Returned res ->
          filter is_mutation delta <> []).
Proof.
  unfold syncPages. exec_unfold. exec;
    rewrite <- ?app_assoc; cbn [app]; eexists;
    (split; [reflexivity|]);
    (split; [intros code H; first [discriminate H | now injection H as <-]|]);
    (split; [cbn [In]; intros n a H;
             repeat (destruct H as [H|H]; [try discriminate H|]);
             first [contradiction | reflexivity]|]);
    (split; [reflexivity|]); (split; [reflexivity|]);
    intros res H; first [discriminate H | cbn; discriminate].
Qed.

(** What a run of [syncWorker] adds to the trace, from any point of a
    process: it never exits and never touches the Pages project. *)
Lemma syncWorker_from {rtm : JsRuntime}
    (w : World) (accountId : string) (config : Config) (branch : string)
    (secrets : option JsObject) (workingDir : string) (tr0 : list Event) :
  exists delta,
    snd (syncWorker w accountId config branch secrets workingDir tr0)
    = (tr0 ++ delta)%list
    /\ (forall code,
          fst (syncWorker w accountId config branch secrets workingDir tr0)
          <> Exited code)
    /\ filter is_mutation delta = []
    /\ (forall f, In (ReadFileSync f) delta ->
                  exists wc, cfg_worker config = Some wc
                             /\ f = workingDir ++ "/" ++ worker_main wc).
Proof.
  unfold syncWorker. exec_unfold. exec;
    rewrite <- ?app_assoc; cbn [app]; eexists;
    (split; [reflexivity|]); (split; [intros code H; discriminate H|]);
    (split; [reflexivity|]);
    cbn [In]; intros f H;
    repeat (destruct H as [H|H]; [try discriminate H|]); try contradiction;
    injection H as <-; eexists; split; reflexivity.
Qed.

Lemma env_is_true_inv (v : option string) (s : string) :
  env_is v s = true -> v = Some s.
Proof.
  destruct v as [t|]; simpl; [|discriminate].
  intros H. apply String.eqb_eq in H. now subst.
Qed.

Lemma env_is_eq (v : option string) (s : string) :
  v = Some s -> env_is v s = true.
Proof. intros ->. simpl. apply String.eqb_refl. Qed.

Lemma is_true_inv (v : option JsValue) :
  is_true v = true -> v = Some (JsBoolean true).
Proof. destruct v as [[ | | | [|] | | | ]|]; simpl; congruence. Qed.

Lemma filter_nil_In {A} (f : A -> bool) (l : list A) (x : A) :
  filter f l = [] -> In x l -> f x = false.
Proof.
  intros Hnil Hin. destruct (f x) eqn:E; [|reflexivity].
  assert (Hx : In x (filter f l)) by (apply filter_In; now split).
  rewrite Hnil in Hx. destruct Hx.
Qed.

Lemma filter_not_nil_In {A} (f : A -> bool) (l : list A) :
  filter f l <> [] -> exists x, In x l /\ f x = true.
Proof.
  destruct (filter f l) as [|x r] eqn:E; [congruence|].
  intros _. exists x. apply filter_In. rewrite E. now left.
Qed.

(** Bring in what is known of the runs of [syncPages] and [syncWorker]
    that a run of [main] contains. *)
Ltac callee_facts :=
  repeat match goal with
         | H : syncPages ?w ?a ?c ?b ?tr = (_, _) |- _ =>
             let d := fresh "dP" in
             let E := fresh "EP" in
             let X := fresh "XP" in
             let D := fresh "DP" in
             let W := fresh "WP" in
             let R := fresh "RP" in
             let Mu := fresh "MP" in
             destruct (syncPages_from w a c b tr) as (d & E & X & D & W & R & Mu);
             rewrite H in E, X, Mu; cbn [fst snd] in E, X, Mu; clear H
         | H : syncWorker ?w ?a ?c ?b ?s ?d ?tr = (_, _) |- _ =>
             let dl := fresh "dW" in
             let E := fresh "EW" in
             let X := fresh "XW" in
             let Mu := fresh "MW" in
             let R := fresh "RW" in
             destruct (syncWorker_from w a c b s d tr) as (dl & E & X & Mu & R);
             rewrite H in E, X; cbn [fst snd] in E, X; clear H
         end;
  subst.

(** X19. [main] never lets an error escape: whatever the world answers,
    it ends by returning or by exiting, and every exit it makes has
    status 1. *)
Theorem main_exit_status {rtm : JsRuntime} (w : World) (rt : Runtime) :
  let r := Eff.run (main w rt) in
  (forall err, fst r <> Thrown err)
  /\ (forall code, fst r = Exited code -> code = 1%Z).
Proof.
  split.
  - unfold main, main_body. exec_unfold. exec; intros ? H; discriminate H.
  - unfold main, main_body. exec_unfold. exec; callee_facts; intros ? H;
      first [ discriminate H
            | injection H as <-;
              first [ reflexivity
                    | match goal with
                      | X : _ |- _ => solve [eapply X; reflexivity]
                      end
                    | exfalso;
                      match goal with
                      | X : _ |- _ => solve [eapply X; reflexivity]
                      end ] ].
Qed.

(** Split a membership in a trace over its pieces. *)
Ltac in_trace H :=
  rewrite ?in_app_iff in H; cbn [In] in H;
  repeat match type of H with
         | _ \/ _ => destruct H as [H|H]
         | False => destruct H
         | _ = _ => discriminate H
         end.

(** X20. Without an API token, an account id or a configuration path (each
    unset or empty), [main] exits with status 1 after one line on the
    error channel, and has made no call: no file is read and the platform
    is not contacted. *)
Theorem main_requires_inputs {rtm : JsRuntime} (w : World) (rt : Runtime) :
  Js.truthy_string (CLOUDFLARE_API_TOKEN (env rt)) = false
  \/ Js.truthy_string (CLOUDFLARE_ACCOUNT_ID (env rt)) = false
  \/ Js.truthy_string (CONFIG_PATH (env rt)) = false ->
  let r := Eff.run (main w rt) in
  fst r = Exited 1
  /\ calls (snd r) = []
  /\ exists msg, last (snd r) (ConsoleLog "") = ConsoleError msg.
Proof.
  intros Hin. unfold main, main_body. exec_unfold. exec;
    first [ (split; [reflexivity|]); (split; [reflexivity|]);
            eexists; reflexivity
          | exfalso; destruct Hin as [Hin|[Hin|Hin]]; congruence ].
Qed.

Lemma main_requires_inputs_witness :
  Js.truthy_string
    (CLOUDFLARE_API_TOKEN
       (env (MockRun.runtime
               {| CLOUDFLARE_API_TOKEN := Some "";
                  CLOUDFLARE_ACCOUNT_ID := Some "account-id";
                  CONFIG_PATH := Some "/repo/cloudflare.json";
                  ALLOW_RECREATE := None; DEPLOY_WORKER := None;
                  BRANCH := None; WORKER_SECRETS := None |}
               MockRun.appFile))) = false
  /\ fst (Eff.run (main (Mock.world [] (inl Mock.not_found))
                     (MockRun.runtime
                        {| CLOUDFLARE_API_TOKEN := Some "";
                           CLOUDFLARE_ACCOUNT_ID := Some "account-id";
                           CONFIG_PATH := Some "/repo/cloudflare.json";
                           ALLOW_RECREATE := None; DEPLOY_WORKER := None;
                           BRANCH := None; WORKER_SECRETS := None |}
                        MockRun.appFile)))
     = Exited 1.
Proof.
  split; [reflexivity|].
  apply (main_requires_inputs (Mock.world [] (inl Mock.not_found))
           (MockRun.runtime
              {| CLOUDFLARE_API_TOKEN := Some "";
                 CLOUDFLARE_ACCOUNT_ID := Some "account-id";
                 CONFIG_PATH := Some "/repo/cloudflare.json";
                 ALLOW_RECREATE := None; DEPLOY_WORKER := None;
                 BRANCH := None; WORKER_SECRETS := None |}
              MockRun.appFile)).
  left. reflexivity.
Defined.

(** X21. A run of [main] deletes a Pages project only when ALLOW_RECREATE
    is the string true or the configuration it has read from CONFIG_PATH
    and parsed carries [allow_recreate: true]; with neither, no answer of
    the platform makes it delete anything. *)
Theorem main_delete_requires_authorization {rtm : JsRuntime}
    (w : World) (rt : Runtime) (project account : string) :
  In (PagesProjectsDelete project account) (snd (Eff.run (main w rt))) ->
  ALLOW_RECREATE (env rt) = Some "true"
  \/ exists content file,
       readFileSync w [] (Js.or_string (CONFIG_PATH (env rt)) "") = inr content
       /\ JSON_parse_config rt content = inr file
       /\ file_allow_recreate file = Some (JsBoolean true).
Proof.
  unfold main, main_body. exec_unfold. exec; callee_facts; intros H;
    in_trace H;
    first [ match goal with
            | D : forall n a, In _ _ -> _ = true |- _ =>
                apply D in H; apply orb_true_iff in H as [H|H];
                [ left; now apply env_is_true_inv
                | right; do 2 eexists;
                  split; [first [reflexivity | eassumption]|]; split;
                  [eassumption | now apply is_true_inv] ]
            end
          | match goal with
            | Mu : filter is_mutation _ = [] |- _ =>
                apply (filter_nil_In _ _ _ Mu) in H; discriminate H
            end ].
Qed.

Lemma main_delete_requires_authorization_witness :
  In (PagesProjectsDelete "my-app" "account-id")
     (snd (Eff.run (main (Mock.world [] (inr Mock.direct_upload_project))
                      (MockRun.runtime MockRun.full_env
                         {| file_config := Mock.appConfig None;
                            file_allow_recreate := Some (JsBoolean true) |}))))
  /\ (ALLOW_RECREATE MockRun.full_env = Some "true"
      \/ exists content file,
           readFileSync (Mock.world [] (inr Mock.direct_upload_project)) []
             "/repo/cloudflare.json" = inr content
           /\ JSON_parse_config
                (MockRun.runtime MockRun.full_env
                   {| file_config := Mock.appConfig None;
                      file_allow_recreate := Some (JsBoolean true) |}) content
              = inr file
           /\ file_allow_recreate file = Some (JsBoolean true)).
Proof.
  split; [vm_compute; do 13 right; left; reflexivity|].
  apply (main_delete_requires_authorization
           (Mock.world [] (inr Mock.direct_upload_project))
           (MockRun.runtime MockRun.full_env
              {| file_config := Mock.appConfig None;
                 file_allow_recreate := Some (JsBoolean true) |})
           "my-app" "account-id").
  vm_compute. do 13 right. left. reflexivity.
Defined.

(** X22. With DEPLOY_WORKER set to the string false, a run of [main]
    runs nothing of the worker whatever the configuration declares: no
    build command, no upload, no subdomain query, and the only file it
    reads is the configuration file. *)
Theorem main_worker_disabled {rtm : JsRuntime} (w : World) (rt : Runtime) :
  DEPLOY_WORKER (env rt) = Some "false" ->
  let r := Eff.run (main w rt) in
  filter is_worker_call (snd r) = []
  /\ forall f, In (ReadFileSync f) (snd r) ->
               f = Js.or_string (CONFIG_PATH (env rt)) "".
Proof.
  intros Hoff. unfold main, main_body.
  rewrite (env_is_eq _ _ Hoff). exec_unfold. exec; callee_facts;
    (split;
     [ rewrite ?filter_app; cbn [filter is_worker_call app];
       repeat match goal with
              | Wk : filter is_worker_call _ = [] |- _ => rewrite Wk; clear Wk
              end; reflexivity
     | intros f H; in_trace H;
       first [ now injection H as <-
             | match goal with
               | Rd : filter is_read _ = [] |- _ =>
                   apply (filter_nil_In _ _ _ Rd) in H; discriminate H
               end ] ]).
Qed.

Lemma main_worker_disabled_witness :
  filter is_worker_call
    (snd (Eff.run (main (Mock.world [] (inl Mock.not_found))
                     (MockRun.runtime
                        {| CLOUDFLARE_API_TOKEN := Some "token";
                           CLOUDFLARE_ACCOUNT_ID := Some "account-id";
                           CONFIG_PATH := Some "/repo/cloudflare.json";
                           ALLOW_RECREATE := None;
                           DEPLOY_WORKER := Some "false";
                           BRANCH := None; WORKER_SECRETS := None |}
                        MockRun.appFile))))
  = [].
Proof.
  apply (main_worker_disabled (Mock.world [] (inl Mock.not_found))
           (MockRun.runtime
              {| CLOUDFLARE_API_TOKEN := Some "token";
                 CLOUDFLARE_ACCOUNT_ID := Some "account-id";
                 CONFIG_PATH := Some "/repo/cloudflare.json";
                 ALLOW_RECREATE := None;
                 DEPLOY_WORKER := Some "false";
                 BRANCH := None; WORKER_SECRETS := None |}
              MockRun.appFile)).
  reflexivity.
Defined.

(** X23. In a run of [main] the worker is only dealt with once the Pages
    project has been reconciled: whenever the trace holds a build, an
    upload or a subdomain query, it also holds a mutation of the Pages
    project (a create, an edit or a delete). *)
Theorem main_worker_after_pages {rtm : JsRuntime} (w : World) (rt : Runtime) (ev : Event) :
  In ev (snd (Eff.run (main w rt))) ->
  is_worker_call ev = true ->
  exists m, In m (snd (Eff.run (main w rt))) /\ is_mutation m = true.
Proof.
  unfold main, main_body. exec_unfold. exec; callee_facts; intros H Hev;
    in_trace H; try (subst ev; discriminate Hev);
    first [ match goal with
            | Wk : filter is_worker_call ?d = [], Hd : In ev ?d |- _ =>
                rewrite (filter_nil_In _ _ _ Wk Hd) in Hev; discriminate Hev
            end
          | match goal with
            | Mu : forall res, Returned ?a = Returned res -> _ <> [] |- _ =>
                destruct (filter_not_nil_In _ _ (Mu a eq_refl)) as [m [Hm Em]];
                exists m; split; [|exact Em];
                rewrite ?in_app_iff; cbn [In]; tauto
            end ].
Qed.

Lemma main_worker_after_pages_witness :
  In (WorkersSubdomainsGet "account-id")
     (snd (Eff.run (main (Mock.world [] (inl Mock.not_found))
                      (MockRun.runtime MockRun.full_env MockRun.appFile))))
  /\ exists m,
       In m (snd (Eff.run (main (Mock.world [] (inl Mock.not_found))
                             (MockRun.runtime MockRun.full_env MockRun.appFile))))
       /\ is_mutation m = true.
Proof.
  split; [vm_compute; do 25 right; left; reflexivity|].
  apply (main_worker_after_pages (Mock.world [] (inl Mock.not_found))
           (MockRun.runtime MockRun.full_env MockRun.appFile)
           (WorkersSubdomainsGet "account-id")).
  - vm_compute. do 25 right. left. reflexivity.
  - reflexivity.
Defined.

Lemma list_ascii_of_string_app (s t : string) :
  list_ascii_of_string (s ++ t)
  = (list_ascii_of_string s ++ list_ascii_of_string t)%list.
Proof. induction s as [|c r IH]; simpl; [reflexivity | now rewrite IH]. Qed.

Lemma slash_free_Forall (s : string) :
  slash_free s = true ->
  Forall (fun c => is_slash c = false) (list_ascii_of_string s).
Proof.
  induction s as [|c r IH]; simpl; intros H; constructor.
  - apply andb_prop in H as [H _]. now apply negb_true_iff.
  - apply andb_prop in H as [_ H]. now apply IH.
Qed.

Lemma drop_segment (l rest : list ascii) :
  Forall (fun c => is_slash c = false) l ->
  drop_while (fun c => negb (is_slash c)) (l ++ "/"%char :: rest)%list
  = ("/"%char :: rest)%list.
Proof.
  induction 1 as [|c l Hc _ IH]; simpl; [reflexivity|].
  now rewrite Hc.
Qed.

Lemma drop_no_trailing (l rest : list ascii) :
  Forall (fun c => is_slash c = false) l -> l <> [] ->
  drop_while is_slash (l ++ rest)%list = (l ++ rest)%list.
Proof.
  intros [|c l' Hc _] Hne; [contradiction|]. simpl. now rewrite Hc.
Qed.

(** [dirname] undoes the joining of a directory and a file name. *)
Lemma dirname_join (dir file : string) :
  dir <> "" -> dir <> "/" -> slash_free file = true -> file <> "" ->
  dirname (dir ++ "/" ++ file) = dir.
Proof.
  intros Hdir Hroot Hfree Hfile.
  destruct dir as [|c0 d]; [contradiction|].
  unfold dirname. cbn [append].
  rewrite list_ascii_of_string_app. cbn [list_ascii_of_string append].
  rewrite rev_app_distr. cbn [rev]. rewrite <- !app_assoc. cbn [app].
  assert (Hall : Forall (fun c => is_slash c = false)
                   (rev (list_ascii_of_string file))).
  { apply Forall_rev. now apply slash_free_Forall. }
  assert (Hne : rev (list_ascii_of_string file) <> []).
  { destruct file as [|c f]; [contradiction|]. simpl.
    intros E. apply (f_equal (@List.length ascii)) in E.
    rewrite length_app in E. simpl in E. lia. }
  rewrite (drop_no_trailing _ _ Hall Hne), (drop_segment _ _ Hall).
  destruct (rev (list_ascii_of_string d)) as [|x before] eqn:E.
  - assert (d = "").
    { destruct d as [|c r]; [reflexivity|]. simpl in E.
      apply (f_equal (@List.length ascii)) in E.
      rewrite length_app in E. simpl in E. lia. }
    subst d. destruct (is_slash c0) eqn:Hc; [|reflexivity].
    unfold is_slash in Hc. apply Ascii.eqb_eq in Hc. subst c0. contradiction.
  - rewrite <- E, rev_involutive, string_of_list_ascii_of_string. reflexivity.
Qed.

(** X24. With the configuration at [dir/file], the files a run of [main]
    reads are that configuration file and, for the worker, the entry point
    that the configuration read from that file declares, resolved against
    [dir]: the directory of the configuration file is the working
    directory of the publication. *)
Theorem main_reads_beside_config {rtm : JsRuntime}
    (w : World) (rt : Runtime) (dir file f : string) :
  CONFIG_PATH (env rt) = Some (dir ++ "/" ++ file) ->
  dir <> "" -> dir <> "/" -> slash_free file = true -> file <> "" ->
  In (ReadFileSync f) (snd (Eff.run (main w rt))) ->
  f = dir ++ "/" ++ file
  \/ exists content cfile wc,
       readFileSync w [] (dir ++ "/" ++ file) = inr content
       /\ JSON_parse_config rt content = inr cfile
       /\ cfg_worker (file_config cfile) = Some wc
       /\ f = dir ++ "/" ++ worker_main wc.
Proof.
  intros Hpath Hdir Hroot Hfree Hfile.
  assert (Hor : Js.or_string (CONFIG_PATH (env rt)) "" = dir ++ "/" ++ file).
  { rewrite Hpath. destruct dir; [contradiction | reflexivity]. }
  pose proof (dirname_join dir file Hdir Hroot Hfree Hfile) as Hdn.
  unfold main, main_body. rewrite !Hor, Hdn. exec_unfold.
  exec; callee_facts; intros H; in_trace H;
    first [ left; now injection H as <-
          | match goal with
            | Rd : filter is_read _ = [] |- _ =>
                apply (filter_nil_In _ _ _ Rd) in H; discriminate H
            end
          | match goal with
            | Rw : forall f, In (ReadFileSync f) _ -> _ |- _ =>
                destruct (Rw _ H) as [wc' [Hwc' ->]];
                right; do 3 eexists;
                split; [first [reflexivity | eassumption]|];
                split; [eassumption|];
                split; [|reflexivity]; congruence
            end ].
Qed.

Lemma main_reads_beside_config_witness :
  In (ReadFileSync "/repo/worker/worker.js")
     (snd (Eff.run (main (Mock.world [] (inl Mock.not_found))
                      (MockRun.runtime MockRun.full_env MockRun.appFile))))
  /\ ("/repo/worker/worker.js" = "/repo" ++ "/" ++ "cloudflare.json"
      \/ exists content cfile wc,
           readFileSync (Mock.world [] (inl Mock.not_found)) []
             ("/repo" ++ "/" ++ "cloudflare.json") = inr content
           /\ JSON_parse_config (MockRun.runtime MockRun.full_env MockRun.appFile)
                content = inr cfile
           /\ cfg_worker (file_config cfile) = Some wc
           /\ "/repo/worker/worker.js" = "/repo" ++ "/" ++ worker_main wc).
Proof.
  split; [vm_compute; do 21 right; left; reflexivity|].
  apply (main_reads_beside_config (Mock.world [] (inl Mock.not_found))
           (MockRun.runtime MockRun.full_env MockRun.appFile)
           "/repo" "cloudflare.json" "/repo/worker/worker.js").
  - reflexivity.
  - discriminate.
  - discriminate.
  - reflexivity.
  - discriminate.
  - vm_compute. do 21 right. left. reflexivity.
Defined.

(** ** Repository detection *)

Lemma split_scan_last (a seg : string) :
  slash_free a = true -> split_scan a seg = [seg ++ a].
Proof.
  revert seg. induction a as [|c r IH]; intros seg H; simpl.
  - now rewrite append_empty_r.
  - simpl in H. apply andb_prop in H as [Hc Hr].
    unfold is_slash in Hc. apply negb_true_iff in Hc. rewrite Hc.
    now rewrite (IH _ Hr), append_snoc.
Qed.

Lemma split_scan_segment (a rest seg : string) :
  slash_free a = true ->
  split_scan (a ++ "/" ++ rest) seg = (seg ++ a) :: split_scan rest "".
Proof.
  revert seg. induction a as [|c r IH]; intros seg H; simpl.
  - now rewrite append_empty_r.
  - simpl in H. apply andb_prop in H as [Hc Hr].
    unfold is_slash in Hc. apply negb_true_iff in Hc. rewrite Hc.
    now rewrite (IH _ Hr), append_snoc.
Qed.

(** X25. From a GITHUB_REPOSITORY of the form owner/name,
    [getRepoInfoFromEnv] gives back the owner and the name; anything after
    a second slash is dropped; a value without a slash gives the owner
    alone, the name undefined; an unset or empty value gives null. *)
Theorem getRepoInfoFromEnv_segments (owner name rest : string) :
  slash_free owner = true ->
  slash_free name = true ->
  getRepoInfoFromEnv (Some (owner ++ "/" ++ name))
  = Some {| repoOwner := Some owner; repoName := Some name |}
  /\ getRepoInfoFromEnv (Some (owner ++ "/" ++ name ++ "/" ++ rest))
     = Some {| repoOwner := Some owner; repoName := Some name |}
  /\ (owner <> "" ->
      getRepoInfoFromEnv (Some owner)
      = Some {| repoOwner := Some owner; repoName := None |})
  /\ getRepoInfoFromEnv None = None
  /\ getRepoInfoFromEnv (Some "") = None.
Proof.
  intros Ho Hn.
  assert (T : forall t, Js.truthy_string (Some (owner ++ "/" ++ t)) = true).
  { intros t. destruct owner; reflexivity. }
  assert (O : forall t, Js.or_string (Some (owner ++ "/" ++ t)) ""
                        = owner ++ "/" ++ t).
  { intros t. destruct owner; reflexivity. }
  unfold getRepoInfoFromEnv, split_slash.
  split; [|split; [|split; [|split]]].
  - rewrite T, O. cbn [negb]. rewrite (split_scan_segment _ _ _ Ho).
    rewrite (split_scan_last _ _ Hn). reflexivity.
  - rewrite T, O. cbn [negb]. rewrite (split_scan_segment _ _ _ Ho).
    rewrite (split_scan_segment _ _ _ Hn). reflexivity.
  - intros Hne. destruct owner as [|c o]; [contradiction|].
    cbn [Js.truthy_string Js.or_string negb].
    rewrite (split_scan_last _ _ Ho). reflexivity.
  - reflexivity.
  - reflexivity.
Qed.

Lemma getRepoInfoFromEnv_segments_witness :
  getRepoInfoFromEnv (Some ("my-org" ++ "/" ++ "my-repo-name"))
  = Some {| repoOwner := Some "my-org"; repoName := Some "my-repo-name" |}.
Proof.
  apply (getRepoInfoFromEnv_segments "my-org" "my-repo-name" "");
    reflexivity.
Defined.
